(** * preload.js: row transformer and academic-year utilities

    A shallow embedding of [src/preload.js] and of the parts of the
    ECMAScript runtime its three functions call ([parseInt], [Date.UTC],
    [Date.prototype.toISOString], [String.prototype.slice] and [split],
    [Object.keys], [Array.from]), followed by the properties of the
    functions.

    Conventions of the embedding.
    - A string is the list of its UTF-16 code units.
    - A Number is modelled when it is integer valued, as a [Z]; NaN is the
      [None] of an [option Z].  Fractions are not modelled.  A Number
      given to [academicYear] is the double nearest to the integer
      written, as a numeric literal is read.
    - A plain object is the list of its own enumerable data properties in
      enumeration order (the order of [Object.keys]); the list has no
      repeated key.  The prototype of an object is not part of the list:
      an assignment to the name [__proto__], which reaches the setter
      inherited from [Object.prototype], leaves the list as it is.
    - A call that can throw returns an [outcome]. *)

From Stdlib Require Import ZArith NArith List Bool Lia String Ascii Decimal.
From Stdlib Require Import DecimalN.
From Stdlib Require DecimalFacts.
Import ListNotations.
Open Scope Z_scope.
Set Warnings "-register-all".

(** ** Strings as sequences of code units *)

Definition code_unit := N.
Definition jsstring := list code_unit.

(** The code units of a literal written in ASCII. *)
Definition js (s : string) : jsstring :=
  map N_of_ascii (list_ascii_of_string s).

Fixpoint jsstring_eqb (a b : jsstring) : bool :=
  match a, b with
  | [], [] => true
  | x :: a', y :: b' => N.eqb x y && jsstring_eqb a' b'
  | _, _ => false
  end.

(** ** Completion records *)

Inductive error := RangeError | TypeError.

Inductive outcome (A : Type) :=
| Returns (a : A)
| Throws (e : error).
Arguments Returns {A} a.
Arguments Throws {A} e.

Definition bind {A B} (m : outcome A) (f : A -> outcome B) : outcome B :=
  match m with
  | Returns a => f a
  | Throws e => Throws e
  end.

Notation "x <- m ;; k" := (bind m (fun x => k))
  (at level 61, m at next level, right associativity).

(** ** Number to string and string to number *)

Module JS.

(** Decimal digits of a [Decimal.uint], most significant first. *)
Fixpoint uint_units (d : uint) : jsstring :=
  match d with
  | Nil => []
  | D0 d => 48%N :: uint_units d
  | D1 d => 49%N :: uint_units d
  | D2 d => 50%N :: uint_units d
  | D3 d => 51%N :: uint_units d
  | D4 d => 52%N :: uint_units d
  | D5 d => 53%N :: uint_units d
  | D6 d => 54%N :: uint_units d
  | D7 d => 55%N :: uint_units d
  | D8 d => 56%N :: uint_units d
  | D9 d => 57%N :: uint_units d
  end.

(** The decimal string of an integer: its digits, with a leading minus
    sign for a negative one. *)
Definition decimal_string (z : Z) : jsstring :=
  match z with
  | Z0 => js "0"
  | Zpos p => uint_units (N.to_uint (Npos p))
  | Zneg p => 45%N :: uint_units (N.to_uint (Npos p))
  end.

(** WhiteSpace and LineTerminator code points, as [TrimString] strips. *)
Definition is_white_space (c : code_unit) : bool :=
  existsb (N.eqb c)
    [0x9; 0xA; 0xB; 0xC; 0xD; 0x20; 0xA0; 0x1680;
     0x2000; 0x2001; 0x2002; 0x2003; 0x2004; 0x2005; 0x2006; 0x2007;
     0x2008; 0x2009; 0x200A; 0x2028; 0x2029; 0x202F; 0x205F; 0x3000;
     0xFEFF]%N.

Fixpoint trim_start (s : jsstring) : jsstring :=
  match s with
  | c :: r => if is_white_space c then trim_start r else s
  | [] => []
  end.

Definition is_digit (c : code_unit) : bool :=
  (48 <=? c)%N && (c <=? 57)%N.

(** The longest prefix of decimal digits. *)
Fixpoint digit_prefix (s : jsstring) : jsstring :=
  match s with
  | c :: r => if is_digit c then c :: digit_prefix r else []
  | [] => []
  end.

Definition digits_value (ds : jsstring) : Z :=
  fold_left (fun acc c => acc * 10 + (Z.of_N c - 48)) ds 0.

(** [parseInt(string, 10)] on a string: leading white space is dropped,
    then an optional sign, then the longest run of decimal digits is
    read; no digit gives NaN, here [None].  The value is the exact
    integer: the runtime rounds it to a double, which changes it only
    beyond 2^53, where [Date.UTC] has no date for either. *)
Definition parseInt10 (inputString : jsstring) : option Z :=
  let trimmed := trim_start inputString in
  let sign := match trimmed with 45%N :: _ => -1 | _ => 1 end in
  let unsigned := match trimmed with
                  | 43%N :: r => r
                  | 45%N :: r => r
                  | _ => trimmed
                  end in
  match digit_prefix unsigned with
  | [] => None
  | ds => Some (sign * digits_value ds)
  end.

(** [String.prototype.slice(start)] with a negative [start]: the last
    [n] code units, the whole string when it is shorter. *)
Definition slice_last (n : nat) (s : jsstring) : jsstring :=
  skipn (List.length s - n) s.

(** [s.split(sep)[0]] for a one-unit separator: the part before the
    first occurrence of [sep], the whole string when there is none. *)
Fixpoint split_first (sep : code_unit) (s : jsstring) : jsstring :=
  match s with
  | [] => []
  | c :: r => if N.eqb c sep then [] else c :: split_first sep r
  end.

(** [String.prototype.padStart(n, "0")]. *)
Definition pad_zero (n : nat) (s : jsstring) : jsstring :=
  repeat 48%N (n - List.length s) ++ s.

(** The double nearest to an integer, ties going to the even
    significand: integers up to 2^53 are doubles; above, the 53 leading
    bits are kept and the rest is rounded.  (A result of 2^1024 or more
    stands for an infinity.) *)
Definition round_double (z : Z) : Z :=
  let a := Z.abs z in
  if a <=? 2 ^ 53 then z
  else
    let e := Z.log2 a - 52 in
    let m := a / 2 ^ e in
    let r := a mod 2 ^ e in
    let half := 2 ^ (e - 1) in
    let m' := if (half <? r) || ((r =? half) && Z.odd m) then m + 1 else m in
    Z.sgn z * (m' * 2 ^ e).

(** The multiple of 10^p that reads back as the double [d], when one of
    the two multiples next to [d] does; of two, the nearer, and the even
    one when they are as near. *)
Definition candidate (d p : Z) : option Z :=
  let s := d / 10 ^ p in
  let lo := s * 10 ^ p in
  let hi := lo + 10 ^ p in
  let lo_ok := round_double lo =? d in
  let hi_ok := round_double hi =? d in
  if lo_ok && hi_ok then
    Some (if d - lo <? hi - d then lo
          else if hi - d <? d - lo then hi
          else if Z.even s then lo else hi)
  else if lo_ok then Some lo
  else if hi_ok then Some hi
  else None.

(** The integer with the fewest significant digits that reads back as
    the positive double [d]: multiples of 10^p are tried for [p] and
    then the smaller powers. *)
Fixpoint shortest_from (d : Z) (p : nat) : Z :=
  match candidate d (Z.of_nat p) with
  | Some v => v
  | None =>
      match p with
      | O => d
      | S p' => shortest_from d p'
      end
  end.

Definition shortest_decimal (d : Z) : Z :=
  shortest_from d (List.length (decimal_string d) - 1).

Fixpoint strip_leading_zeros (s : jsstring) : jsstring :=
  match s with
  | 48%N :: r => strip_leading_zeros r
  | _ => s
  end.

Definition strip_trailing_zeros (s : jsstring) : jsstring :=
  List.rev (strip_leading_zeros (List.rev s)).

(** [Number.prototype.toString()] on a finite integer Number.  A safe
    integer (magnitude at most 2^53 - 1) is written digit for digit.  A
    larger one is written from the fewest digits that read back as it:
    filled with zeros up to 21 digits, and beyond in exponent notation,
    the first digit, a point and the other digits if there are any, then
    [e+] and the exponent. *)
Definition Number_toString (z : Z) : jsstring :=
  if Z.abs z <=? 2 ^ 53 - 1 then decimal_string z
  else
    let ds := decimal_string (shortest_decimal (Z.abs z)) in
    let n := List.length ds in
    (if z <? 0 then js "-" else [])
    ++ (if (n <=? 21)%nat then ds
        else
          let exponent := js "e+" ++ decimal_string (Z.of_nat (n - 1)) in
          match strip_trailing_zeros ds with
          | [] => ds
          | [c] => [c] ++ exponent
          | c :: r => [c] ++ js "." ++ r ++ exponent
          end).

End JS.

(** ** Dates: time values, [Date.UTC] and [toISOString] *)

Module Date.

Definition msPerDay : Z := 86400000.
Definition msPerHour : Z := 3600000.
Definition msPerMinute : Z := 60000.
Definition msPerSecond : Z := 1000.

(** Number of the first day of year [y], counted from 1 January 1970. *)
Definition DayFromYear (y : Z) : Z :=
  365 * (y - 1970) + (y - 1969) / 4 - (y - 1901) / 100 + (y - 1601) / 400.

Definition InLeapYear_of (y : Z) : bool :=
  if (y mod 4 =? 0) then
    if (y mod 100 =? 0) then (y mod 400 =? 0) else true
  else false.

Definition DaysInYear (y : Z) : Z := if InLeapYear_of y then 366 else 365.

Definition Day (t : Z) : Z := t / msPerDay.
Definition TimeWithinDay (t : Z) : Z := t mod msPerDay.

(** The year that contains day [d]: the largest [y] with
    [DayFromYear y <= d], computed over the 400, 100, 4 and 1 year
    cycles counted from 1 January 1601. *)
Definition YearFromDay (d : Z) : Z :=
  let n := d + 134774 in
  let q400 := n / 146097 in
  let r400 := n mod 146097 in
  let q100 := Z.min (r400 / 36524) 3 in
  let r100 := r400 - q100 * 36524 in
  let q4 := r100 / 1461 in
  let r4 := r100 mod 1461 in
  let q1 := Z.min (r4 / 365) 3 in
  1601 + 400 * q400 + 100 * q100 + 4 * q4 + q1.

Definition YearFromTime (t : Z) : Z := YearFromDay (Day t).

Definition InLeapYear (t : Z) : Z :=
  if InLeapYear_of (YearFromTime t) then 1 else 0.

Definition DayWithinYear (t : Z) : Z :=
  Day t - DayFromYear (YearFromTime t).

Definition MonthFromTime (t : Z) : Z :=
  let d := DayWithinYear t in
  let leap := InLeapYear t in
  if d <? 31 then 0
  else if d <? 59 + leap then 1
  else if d <? 90 + leap then 2
  else if d <? 120 + leap then 3
  else if d <? 151 + leap then 4
  else if d <? 181 + leap then 5
  else if d <? 212 + leap then 6
  else if d <? 243 + leap then 7
  else if d <? 273 + leap then 8
  else if d <? 304 + leap then 9
  else if d <? 334 + leap then 10
  else 11.

Definition DateFromTime (t : Z) : Z :=
  let d := DayWithinYear t in
  let leap := InLeapYear t in
  match MonthFromTime t with
  | 0 => d + 1
  | 1 => d - 30
  | 2 => d - 58 - leap
  | 3 => d - 89 - leap
  | 4 => d - 119 - leap
  | 5 => d - 150 - leap
  | 6 => d - 180 - leap
  | 7 => d - 211 - leap
  | 8 => d - 242 - leap
  | 9 => d - 272 - leap
  | 10 => d - 303 - leap
  | _ => d - 333 - leap
  end.

Definition HourFromTime (t : Z) : Z := (t / msPerHour) mod 24.
Definition MinFromTime (t : Z) : Z := (t / msPerMinute) mod 60.
Definition SecFromTime (t : Z) : Z := (t / msPerSecond) mod 60.
Definition msFromTime (t : Z) : Z := t mod msPerSecond.

(** Day within the year on which month [mn] (0 to 11) starts. *)
Definition month_start (mn : Z) (leap : Z) : Z :=
  match mn with
  | 0 => 0
  | 1 => 31
  | 2 => 59 + leap
  | 3 => 90 + leap
  | 4 => 120 + leap
  | 5 => 151 + leap
  | 6 => 181 + leap
  | 7 => 212 + leap
  | 8 => 243 + leap
  | 9 => 273 + leap
  | 10 => 304 + leap
  | _ => 334 + leap
  end.

(** Number of days of month [mn] (0 to 11). *)
Definition DaysInMonth (mn : Z) (leap : Z) : Z :=
  match mn with
  | 1 => 28 + leap
  | 3 | 5 | 8 | 10 => 30
  | _ => 31
  end.

Definition MakeTime (hour min sec ms : Z) : Z :=
  hour * msPerHour + min * msPerMinute + sec * msPerSecond + ms.

(** [MakeDay]: the day number of the first day of the month, plus
    [date - 1]; months outside 0..11 carry into the year. *)
Definition MakeDay (year month date : Z) : Z :=
  let ym := year + month / 12 in
  let mn := month mod 12 in
  DayFromYear ym + month_start mn (if InLeapYear_of ym then 1 else 0)
  + date - 1.

Definition MakeDate (day time : Z) : Z := day * msPerDay + time.

(** Time values range over 100,000,000 days either side of the epoch;
    anything beyond is NaN. *)
Definition TimeClip (time : Z) : option Z :=
  if Z.abs time >? 8640000000000000 then None else Some time.

(** A year from 0 to 99 stands for 1900 + year. *)
Definition MakeFullYear (year : Z) : Z :=
  if (0 <=? year) && (year <=? 99) then 1900 + year else year.

(** [Date.UTC(year, month, date)]. *)
Definition UTC (year month date : Z) : option Z :=
  TimeClip (MakeDate (MakeDay (MakeFullYear year) month date)
                     (MakeTime 0 0 0 0)).

(** [new Date(tv)]: the date object is its clipped time value, [None]
    for an Invalid Date. *)
Definition new (tv : option Z) : option Z :=
  match tv with
  | Some t => TimeClip t
  | None => None
  end.

(** Year of an ISO string: four digits from 0 to 9999, otherwise a sign
    and six digits. *)
Definition iso_year (y : Z) : jsstring :=
  if (0 <=? y) && (y <=? 9999) then JS.pad_zero 4 (JS.decimal_string y)
  else (if y <? 0 then js "-" else js "+")
         ++ JS.pad_zero 6 (JS.decimal_string (Z.abs y)).

Definition two (z : Z) : jsstring := JS.pad_zero 2 (JS.decimal_string z).
Definition three (z : Z) : jsstring := JS.pad_zero 3 (JS.decimal_string z).

(** [Date.prototype.toISOString]: throws a RangeError on an Invalid
    Date. *)
Definition toISOString (d : option Z) : outcome jsstring :=
  match d with
  | None => Throws RangeError
  | Some t =>
      Returns (iso_year (YearFromTime t) ++ js "-"
               ++ two (MonthFromTime t + 1) ++ js "-"
               ++ two (DateFromTime t) ++ js "T"
               ++ two (HourFromTime t) ++ js ":"
               ++ two (MinFromTime t) ++ js ":"
               ++ two (SecFromTime t) ++ js "."
               ++ three (msFromTime t) ++ js "Z")
  end.

End Date.

(** ** Academic year utilities *)

(** The argument of [academicYear]: a string or a number, as its
    documentation declares. *)
Inductive input :=
| InputString (s : jsstring)
| InputNumber (z : Z).

(** [ToString], which [parseInt] applies to its argument.  The Number
    written [z] is the double nearest to [z], an infinity from 2^1024
    on. *)
Definition ToString (i : input) : jsstring :=
  match i with
  | InputString s => s
  | InputNumber z =>
      let d := JS.round_double z in
      if 2 ^ 1024 <=? Z.abs d then
        (if d <? 0 then js "-Infinity" else js "Infinity")
      else JS.Number_toString d
  end.

(** [parseInt(input, 10)]. *)
Definition parseInt (i : input) : option Z := JS.parseInt10 (ToString i).

Record AcademicYearInfo := {
  start : jsstring;
  end_ : jsstring;
  rangeFull : jsstring;
  rangeShort : jsstring;
  rangeCompact : jsstring;
  rangeMixed : jsstring;
  label : jsstring
}.

(** One call of [console.error] with its two arguments. *)
Record console_call := {
  message : jsstring;
  argument : input
}.

(** The en dash of [label], U+2013. *)
Definition en_dash : jsstring := [0x2013%N].

(** [academicYear(input)]: the calls of [console.error] it makes, and
    its completion; [Returns None] is the [null] result. *)
Definition academicYear (i : input)
  : list console_call * outcome (option AcademicYearInfo) :=
  match parseInt i with
  | None =>
      ([ {| message := js "Invalid academic year input:"; argument := i |} ],
       Returns None)
  | Some year =>
      let startDate := Date.new (Date.UTC year 8 1) in
      let endDate := Date.new (Date.UTC (year + 1) 7 31) in
      ([],
       s <- Date.toISOString startDate ;;
       let start := JS.split_first 84%N s in
       e <- Date.toISOString endDate ;;
       let end_ := JS.split_first 84%N e in
       let fullStart := JS.Number_toString year in
       let fullEnd := JS.Number_toString (year + 1) in
       let shortStart := JS.slice_last 2 fullStart in
       let shortEnd := JS.slice_last 2 fullEnd in
       Returns (Some {|
         start := start;
         end_ := end_;
         rangeFull := fullStart ++ js "-" ++ fullEnd;
         rangeShort := shortStart ++ js "-" ++ shortEnd;
         rangeCompact := shortStart ++ shortEnd;
         rangeMixed := fullStart ++ js "-" ++ shortEnd;
         label := fullStart ++ en_dash ++ fullEnd
       |}))
  end.

(** [currentAcademicYear()], as a function of the time value [now] that
    [new Date()] reads from the clock. *)
Definition currentAcademicYear (now : Z) : Z :=
  let year := Date.YearFromTime now in
  let month := Date.MonthFromTime now in
  let academicYear := if month <? 8 then year - 1 else year in
  academicYear.

(** ** Values and the row transformer *)

Inductive value :=
| VUndefined
| VNull
| VBool (b : bool)
| VNum (z : Z)
| VStr (s : jsstring)
| VArr (elems : list value)
| VObj (props : list (jsstring * value)).

(** [ToBoolean]. *)
Definition truthy (v : value) : bool :=
  match v with
  | VUndefined | VNull => false
  | VBool b => b
  | VNum z => negb (z =? 0)
  | VStr s => match s with [] => false | _ => true end
  | VArr _ | VObj _ => true
  end.

Definition typeof (v : value) : jsstring :=
  match v with
  | VUndefined => js "undefined"
  | VNull => js "object"
  | VBool _ => js "boolean"
  | VNum _ => js "number"
  | VStr _ => js "string"
  | VArr _ | VObj _ => js "object"
  end.

(** The property name of index [i]: its decimal string, as [ToString]
    gives for the indices of an array, all below 2^32. *)
Definition index_key (i : nat) : jsstring := JS.decimal_string (Z.of_nat i).

(** The index a property name stands for, when it is the canonical
    decimal form of one. *)
Definition array_index (k : jsstring) : option nat :=
  match k with
  | [] => None
  | _ =>
      if forallb JS.is_digit k then
        let n := Z.to_nat (JS.digits_value k) in
        if jsstring_eqb (index_key n) k then Some n else None
      else None
  end.

Fixpoint lookup (k : jsstring) (props : list (jsstring * value))
  : option value :=
  match props with
  | [] => None
  | (k', v) :: r => if jsstring_eqb k' k then Some v else lookup k r
  end.

(** [Object.keys]. *)
Definition Object_keys (v : value) : list jsstring :=
  match v with
  | VObj props => map fst props
  | VArr elems => map index_key (seq 0 (List.length elems))
  | VStr s => map index_key (seq 0 (List.length s))
  | _ => []
  end.

(** The property key of [keys[0]]: the first key, and the name
    [undefined] when there is none. *)
Definition first_key (keys : list jsstring) : jsstring :=
  match keys with
  | k :: _ => k
  | [] => js "undefined"
  end.

(** The own property [k] of [v]: a property of an object, an element
    or the [length] of an array or of a string; [undefined] for every
    other name (the program reads no inherited property). *)
Definition own_property (v : value) (k : jsstring) : value :=
  match v with
  | VStr s =>
      if jsstring_eqb k (js "length") then VNum (Z.of_nat (List.length s))
      else match array_index k with
           | Some i => match nth_error s i with
                       | Some c => VStr [c]
                       | None => VUndefined
                       end
           | None => VUndefined
           end
  | VArr elems =>
      if jsstring_eqb k (js "length") then VNum (Z.of_nat (List.length elems))
      else match array_index k with
           | Some i => match nth_error elems i with
                       | Some e => e
                       | None => VUndefined
                       end
           | None => VUndefined
           end
  | VObj props =>
      match lookup k props with
      | Some x => x
      | None => VUndefined
      end
  | _ => VUndefined
  end.

(** A property read [v[k]]: it throws on [undefined] and [null]. *)
Definition Get (v : value) (k : jsstring) : outcome value :=
  match v with
  | VUndefined | VNull => Throws TypeError
  | _ => Returns (own_property v k)
  end.

(** An optional-chained read [v?.[k]]: [undefined] on [undefined] and
    [null]. *)
Definition Get_optional (v : value) (k : jsstring) : outcome value :=
  match v with
  | VUndefined | VNull => Returns VUndefined
  | _ => Get v k
  end.

(** [a || b]. *)
Definition or_else (a b : value) : value := if truthy a then a else b.

(** [a ?? b]. *)
Definition nullish (a b : value) : value :=
  match a with
  | VUndefined | VNull => b
  | _ => a
  end.

(** Writing the own property [k]: the value of an existing property is
    replaced in place, a new property comes last. *)
Fixpoint define_prop (props : list (jsstring * value)) (k : jsstring)
  (v : value) : list (jsstring * value) :=
  match props with
  | [] => [(k, v)]
  | (k', v') :: r =>
      if jsstring_eqb k' k then (k', v) :: r else (k', v') :: define_prop r k v
  end.

(** An assignment [row[k] = v] on an object made by [{}].  The name
    [__proto__] is an accessor inherited from [Object.prototype]: the
    assignment calls its setter, which changes the prototype of the row
    when [v] is an object or [null] and creates no own property.  Every
    other name the program assigns becomes an own property. *)
Definition set_prop (props : list (jsstring * value)) (k : jsstring)
  (v : value) : list (jsstring * value) :=
  if jsstring_eqb k (js "__proto__") then props else define_prop props k v.

Fixpoint mapM {A B} (f : A -> outcome B) (l : list A) : outcome (list B) :=
  match l with
  | [] => Returns []
  | a :: r => b <- f a ;; bs <- mapM f r ;; Returns (b :: bs)
  end.

Section RowTransformer.

(** [ToNumber] followed by [ToIntegerOrInfinity] on a string, an array
    or an object, which the runtime computes through [ToPrimitive] and
    the grammar of numeric literals (an infinite result stands as any
    integer beyond 2^53).  It is left open: it is reached only when a
    column is an object that carries a [length] property of its own
    holding such a value. *)
Variable coerce_length : value -> outcome Z.

(** [ToLength]: an integer between 0 and 2^53 - 1. *)
Definition ToLength (v : value) : outcome Z :=
  n <- match v with
       | VUndefined => Returns 0
       | VNull => Returns 0
       | VBool b => Returns (if b then 1 else 0)
       | VNum z => Returns z
       | _ => coerce_length v
       end ;;
  Returns (Z.min (Z.max n 0) (2 ^ 53 - 1)).

(** [Array.from({ length: len }, f)]: [f] is called on the indices 0 to
    the length less one.  An array longer than 2^32 - 1 cannot be
    created. *)
Definition Array_from_length (len : value) (f : nat -> outcome value)
  : outcome value :=
  n <- ToLength len ;;
  if n >? 2 ^ 32 - 1 then Throws RangeError
  else rows <- mapM f (seq 0 (Z.to_nat n)) ;; Returns (VArr rows).

(** The body of the loop that fills one row. *)
Definition fill_row (retoolQueryData : value) (keys : list jsstring) (i : nat)
  : outcome value :=
  row <- fold_left
           (fun acc key =>
              row <- acc ;;
              column <- Get retoolQueryData key ;;
              cell <- Get_optional column (index_key i) ;;
              Returns (set_prop row key (nullish cell VNull)))
           keys (Returns []) ;;
  Returns (VObj row).

Definition transformToRows (retoolQueryData : value) : outcome value :=
  if negb (truthy retoolQueryData)
     || negb (jsstring_eqb (typeof retoolQueryData) (js "object"))
  then Returns (VArr [])
  else
    let keys := Object_keys retoolQueryData in
    column <- Get retoolQueryData (first_key keys) ;;
    len <- Get_optional column (js "length") ;;
    let rowCount := or_else len (VNum 0) in
    let rows := Array_from_length rowCount
                  (fun i => fill_row retoolQueryData keys i) in
    rows.

End RowTransformer.

(** ** Definitions used by the statements *)

(** [Number.isSafeInteger]. *)
Definition is_safe_integer (z : Z) : Prop := Z.abs z <= 2 ^ 53 - 1.

(** The years whose academic year lies within the range of time values:
    1 September of the year and 31 August of the next are both dates. *)
Definition in_date_range (year : Z) : Prop := -271821 <= year <= 275759.

(** The [n] low decimal digits of [z], most significant first. *)
Fixpoint decimal_digits (n : nat) (z : Z) : jsstring :=
  match n with
  | O => []
  | S n' => decimal_digits n' (z / 10) ++ [Z.to_N (48 + z mod 10)]
  end.

(** The calendar date [y]-[m]-[d] written [YYYY-MM-DD], as the
    specification words it: four digits of year, two of month (1 to 12),
    two of day. *)
Definition iso_date (y m d : Z) : jsstring :=
  decimal_digits 4 y ++ js "-" ++ decimal_digits 2 m ++ js "-"
  ++ decimal_digits 2 d.

(** Number of decimal digits of a year. *)
Definition decimal_digit_count (year : Z) : nat :=
  List.length (JS.decimal_string (Z.abs year)).

(** [t] is the last two characters of [s]. *)
Definition last_two_of (s t : jsstring) : Prop :=
  List.length t = 2%nat /\ exists p, s = p ++ t.

(** The object [academicYear] builds for [year] when both of its dates
    are representable. *)
Definition info_of (year : Z) : AcademicYearInfo :=
  let fullStart := JS.decimal_string year in
  let fullEnd := JS.decimal_string (year + 1) in
  let shortStart := JS.slice_last 2 fullStart in
  let shortEnd := JS.slice_last 2 fullEnd in
  {| start := Date.iso_year (Date.MakeFullYear year) ++ js "-09-01";
     end_ := Date.iso_year (Date.MakeFullYear (year + 1)) ++ js "-08-31";
     rangeFull := fullStart ++ js "-" ++ fullEnd;
     rangeShort := shortStart ++ js "-" ++ shortEnd;
     rangeCompact := shortStart ++ shortEnd;
     rangeMixed := fullStart ++ js "-" ++ shortEnd;
     label := fullStart ++ en_dash ++ fullEnd |}.

(** The cell of row [i] under a column: [column?.[i] ?? null]. *)
Definition cell_of (column : value) (i : nat) : value :=
  nullish (match column with
           | VUndefined | VNull => VUndefined
           | _ => own_property column (index_key i)
           end) VNull.

(** A key other than [__proto__]. *)
Definition ordinary_key (k : jsstring) : bool :=
  negb (jsstring_eqb k (js "__proto__")).

(** The columns that become own properties of a row: all but one
    named [__proto__]. *)
Definition own_columns (cols : list (jsstring * value))
  : list (jsstring * value) :=
  filter (fun kc => ordinary_key (fst kc)) cols.

(** A [length] from which [Array.from] makes an array without coercing
    a string or an object: none, a boolean, or a number of at most
    2^32 - 1. *)
Definition creatable_length (len : value) : Prop :=
  match len with
  | VUndefined | VNull | VBool _ => True
  | VNum n => n <= 2 ^ 32 - 1
  | VStr _ | VArr _ | VObj _ => False
  end.

(** Row [i] of a mapping with the properties [cols]. *)
Definition row_of (cols : list (jsstring * value)) (i : nat) : value :=
  VObj (map (fun kc => (fst kc, cell_of (snd kc) i)) (own_columns cols)).

(** The value of the digits of a [Decimal.uint] read after [a]. *)
Fixpoint uint_acc (d : uint) (a : N) : N :=
  match d with
  | Nil => a
  | D0 d => uint_acc d (a * 10 + 0)
  | D1 d => uint_acc d (a * 10 + 1)
  | D2 d => uint_acc d (a * 10 + 2)
  | D3 d => uint_acc d (a * 10 + 3)
  | D4 d => uint_acc d (a * 10 + 4)
  | D5 d => uint_acc d (a * 10 + 5)
  | D6 d => uint_acc d (a * 10 + 6)
  | D7 d => uint_acc d (a * 10 + 7)
  | D8 d => uint_acc d (a * 10 + 8)
  | D9 d => uint_acc d (a * 10 + 9)
  end%N.

(** No code unit of [s] is the letter T. *)
Definition no_T (s : jsstring) : bool :=
  forallb (fun c => negb (N.eqb c 84)) s.

(** The integers [z], [z + 1], ..., [n] of them. *)
Fixpoint zrange (n : nat) (z : Z) : list Z :=
  match n with
  | O => []
  | S n' => z :: zrange n' (z + 1)
  end.

(** The year of an ISO string in its expanded form: a sign and six
    digits. *)
Definition expanded_year (y : Z) : jsstring :=
  (if y <? 0 then js "-" else js "+") ++ decimal_digits 6 (Z.abs y).

(** [rest] does not continue a run of digits: it is empty or starts
    with a code unit that is no digit. *)
Definition stops_digits (rest : jsstring) : Prop :=
  match rest with
  | [] => True
  | c :: _ => JS.is_digit c = false
  end.

(** Midnight of 1 September of year [a], as a time value. *)
Definition september_first (a : Z) : Z := Date.MakeDay a 8 1 * Date.msPerDay.

(** An array or a plain object. *)
Definition is_object (v : value) : Prop :=
  match v with VArr _ | VObj _ => True | _ => False end.

(** The properties the loop of [fill_row] leaves in row [i]. *)
Definition fill_props (d : value) (keys : list jsstring) (i : nat)
  : list (jsstring * value) :=
  fold_left (fun row key => set_prop row key (cell_of (own_property d key) i))
            keys [].

(** The mapping from the indices of an array, [i] onwards, to its
    elements. *)
Fixpoint indexed (i : nat) (elems : list value) : list (jsstring * value) :=
  match elems with
  | [] => []
  | e :: r => (index_key i, e) :: indexed (S i) r
  end.

(** The values the rows hold under key [k], in row order. *)
Definition column_of (k : jsstring) (rows : list value) : list value :=
  map (fun row => own_property row k) rows.

Import JS Date.

(** * Properties *)

(** ** Strings *)

Lemma jsstring_eqb_eq a : forall b, jsstring_eqb a b = true <-> a = b.
Proof.
  induction a as [|x a IH]; intros [|y b]; cbn [jsstring_eqb];
    try (split; [discriminate | discriminate]); [tauto|].
  rewrite andb_true_iff, N.eqb_eq, IH. split; [intros []; congruence|].
  intros E; inversion E; auto.
Qed.

Lemma jsstring_eqb_refl a : jsstring_eqb a a = true.
Proof. apply jsstring_eqb_eq. reflexivity. Qed.

Lemma jsstring_eqb_neq a b : a <> b -> jsstring_eqb a b = false.
Proof.
  intros H. destruct (jsstring_eqb a b) eqn:E; [|reflexivity].
  apply jsstring_eqb_eq in E. contradiction.
Qed.

Lemma in_zrange n : forall z y, z <= y < z + Z.of_nat n -> In y (zrange n z).
Proof.
  induction n as [|n IH]; intros z y H; [lia|].
  cbn [zrange In]. destruct (Z.eq_dec z y); [left; assumption|].
  right. apply IH. lia.
Qed.

(** ** Decimal strings: [parseInt] reads back what [toString] writes *)

Lemma of_uint_acc_uint_acc d : forall p,
  Npos (Pos.of_uint_acc d p) = uint_acc d (Npos p).
Proof.
  induction d; intros p; cbn [Pos.of_uint_acc uint_acc]; try reflexivity;
    rewrite IHd; f_equal; lia.
Qed.

Lemma of_uint_uint_acc d : N.of_uint d = uint_acc d 0.
Proof.
  unfold N.of_uint.
  induction d; cbn [Pos.of_uint uint_acc]; try reflexivity;
    try (rewrite of_uint_acc_uint_acc; f_equal; lia).
  rewrite IHd. reflexivity.
Qed.

Lemma fold_uint_units d : forall a : N,
  fold_left (fun acc c => acc * 10 + (Z.of_N c - 48)) (uint_units d) (Z.of_N a)
  = Z.of_N (uint_acc d a).
Proof.
  induction d; intros a; cbn [uint_units uint_acc fold_left]; try reflexivity;
    rewrite <- IHd; f_equal; lia.
Qed.

Lemma digits_value_uint d : digits_value (uint_units d) = Z.of_N (N.of_uint d).
Proof.
  unfold digits_value. rewrite of_uint_uint_acc.
  apply (fold_uint_units d 0%N).
Qed.

Lemma digit_prefix_uint d : digit_prefix (uint_units d) = uint_units d.
Proof.
  induction d; cbn [uint_units digit_prefix]; try reflexivity;
    match goal with
    | |- context [is_digit ?c] => change (is_digit c) with true
    end; cbv iota; rewrite IHd; reflexivity.
Qed.

Lemma all_digits_uint d : forallb is_digit (uint_units d) = true.
Proof. induction d; cbn [uint_units forallb]; try reflexivity; exact IHd. Qed.

Lemma uint_units_head p :
  exists c r, uint_units (N.to_uint (Npos p)) = c :: r /\ is_digit c = true.
Proof.
  pose proof (DecimalN.Unsigned.of_to (Npos p)) as H.
  destruct (N.to_uint (Npos p)) eqn:E; cbn [uint_units];
    try (eexists; eexists; split; [reflexivity | reflexivity]).
  discriminate H.
Qed.

Lemma digit_bounds c : is_digit c = true -> (48 <= c <= 57)%N.
Proof.
  unfold is_digit. intros H. apply andb_prop in H. destruct H as [H1 H2].
  apply N.leb_le in H1, H2. lia.
Qed.

Lemma parseInt10_digits c r :
  is_digit c = true -> digit_prefix (c :: r) = c :: r ->
  parseInt10 (c :: r) = Some (digits_value (c :: r)).
Proof.
  intros Hc Hp. apply digit_bounds in Hc. unfold parseInt10.
  assert (Hw : is_white_space c = false).
  { unfold is_white_space. cbn [existsb].
    repeat (apply orb_false_intro; [apply N.eqb_neq; lia|]). reflexivity. }
  cbn [trim_start]. rewrite Hw.
  destruct c as [|p]; [lia|].
  do 6 (destruct p as [p|p|]; try lia; try (rewrite Hp; f_equal; lia)).
Qed.

Lemma parseInt10_decimal_string z : parseInt10 (decimal_string z) = Some z.
Proof.
  destruct z as [|p|p]; [reflexivity| |]; cbn [decimal_string];
    destruct (uint_units_head p) as (c & r & E & Hc);
    pose proof (digit_prefix_uint (N.to_uint (Npos p))) as Hp;
    pose proof (digits_value_uint (N.to_uint (Npos p))) as Hv;
    rewrite E in *.
  - rewrite parseInt10_digits by assumption.
    rewrite Hv, DecimalN.Unsigned.of_to. reflexivity.
  - unfold parseInt10.
    change (trim_start (45%N :: c :: r)) with (45%N :: c :: r).
    cbv iota. rewrite Hp, Hv, DecimalN.Unsigned.of_to. reflexivity.
Qed.

Example parseInt10_examples :
  parseInt10 (js "  -12ab") = Some (-12)
  /\ parseInt10 (js "abc") = None
  /\ parseInt10 (js "+7") = Some 7
  /\ parseInt10 (js "2025-2026") = Some 2025
  /\ parseInt10 (js "") = None.
Proof. vm_compute. repeat split. Qed.

Lemma length_uint_units_ge2 d :
  (10 <= N.of_uint d)%N -> (2 <= List.length (uint_units d))%nat.
Proof.
  intros H.
  destruct d as [|d|d|d|d|d|d|d|d|d|d];
    try (destruct d; cbn [uint_units List.length]; try lia; vm_compute in H;
         exfalso; apply H; reflexivity).
  vm_compute in H. exfalso; apply H; reflexivity.
Qed.

Lemma length_decimal_string_ge2 z :
  10 <= Z.abs z -> (2 <= List.length (decimal_string z))%nat.
Proof.
  intros H. destruct z as [|p|p]; [lia| |]; cbn [decimal_string List.length].
  - apply length_uint_units_ge2. rewrite DecimalN.Unsigned.of_to. lia.
  - apply Nat.le_le_succ_r, length_uint_units_ge2.
    rewrite DecimalN.Unsigned.of_to. lia.
Qed.

Lemma digit_count_small z :
  0 <= z < 1000 -> (List.length (decimal_string z) <= 3)%nat.
Proof.
  intros H.
  assert (A : forallb (fun z => (List.length (decimal_string z) <=? 3)%nat)
                (zrange (Z.to_nat 1000) 0) = true) by (vm_compute; reflexivity).
  rewrite forallb_forall in A. apply Nat.leb_le, A, in_zrange. lia.
Qed.

Lemma four_digits_magnitude year :
  (4 <= decimal_digit_count year)%nat -> 1000 <= Z.abs year.
Proof.
  unfold decimal_digit_count. intros H.
  destruct (Z_lt_le_dec (Z.abs year) 1000) as [L|G]; [|exact G].
  pose proof (digit_count_small (Z.abs year) ltac:(lia)). lia.
Qed.

Lemma slice_last_two s :
  (2 <= List.length s)%nat -> last_two_of s (slice_last 2 s).
Proof.
  intros H. unfold last_two_of, slice_last. split.
  - rewrite length_skipn. lia.
  - exists (firstn (List.length s - 2) s). symmetry. apply firstn_skipn.
Qed.

(** ** The calendar: a civil date is read back from its time value *)

Lemma DayFromYear_step y : DayFromYear (y + 1) = DayFromYear y + DaysInYear y.
Proof.
  unfold DayFromYear, DaysInYear, InLeapYear_of.
  destruct (Z.eqb_spec (y mod 4) 0);
    [destruct (Z.eqb_spec (y mod 100) 0);
       [destruct (Z.eqb_spec (y mod 400) 0)|]|];
    Z.div_mod_to_equations; lia.
Qed.

Lemma DayFromYear_mono y1 y2 : y1 <= y2 -> DayFromYear y1 <= DayFromYear y2.
Proof. unfold DayFromYear. intros. Z.div_mod_to_equations. lia. Qed.

(** [YearFromDay] is the largest year that starts no later than the day. *)
Lemma YearFromDay_spec d :
  DayFromYear (YearFromDay d) <= d < DayFromYear (YearFromDay d + 1).
Proof. unfold DayFromYear, YearFromDay. Z.div_mod_to_equations. lia. Qed.

Lemma YearFromDay_unique y d :
  DayFromYear y <= d < DayFromYear (y + 1) -> YearFromDay d = y.
Proof.
  intros H. pose proof (YearFromDay_spec d) as S.
  destruct (Z.lt_trichotomy (YearFromDay d) y) as [L|[E|G]]; [|exact E|].
  - pose proof (DayFromYear_mono (YearFromDay d + 1) y ltac:(lia)). lia.
  - pose proof (DayFromYear_mono (y + 1) (YearFromDay d) ltac:(lia)). lia.
Qed.

Lemma Day_MakeDate day tod :
  0 <= tod < msPerDay -> Day (MakeDate day tod) = day.
Proof.
  intros H. unfold Day, MakeDate, msPerDay in *.
  symmetry. apply Z.div_unique with (r := tod); lia.
Qed.

Lemma MakeDay_month year mn dt :
  0 <= mn <= 11 ->
  MakeDay year mn dt
  = DayFromYear year + month_start mn (if InLeapYear_of year then 1 else 0)
    + dt - 1.
Proof.
  intros H. unfold MakeDay.
  assert (mn / 12 = 0 /\ mn mod 12 = mn) as [-> ->]
    by (Z.div_mod_to_equations; lia).
  rewrite Z.add_0_r. reflexivity.
Qed.

(** Case analysis on a month number between 0 and 11; [tac] closes each
    case. *)
Ltac each_month m tac :=
  let C := fresh "C" in
  assert (m = 0 \/ m = 1 \/ m = 2 \/ m = 3 \/ m = 4 \/ m = 5 \/ m = 6
          \/ m = 7 \/ m = 8 \/ m = 9 \/ m = 10 \/ m = 11) as C by lia;
  repeat (destruct C as [C|C]; [subst m; tac|]); subst m; tac.

Ltac decide_ltb :=
  repeat match goal with
         | |- context [?a <? ?b] => destruct (Z.ltb_spec a b); try lia
         end.

Lemma civil_roundtrip y m dt tod :
  0 <= m <= 11 ->
  1 <= dt <= DaysInMonth m (if InLeapYear_of y then 1 else 0) ->
  0 <= tod < msPerDay ->
  let t := MakeDate (MakeDay y m dt) tod in
  YearFromTime t = y /\ MonthFromTime t = m /\ DateFromTime t = dt.
Proof.
  intros Hm Hd Ht t.
  assert (HD : Day t = MakeDay y m dt) by (apply Day_MakeDate; exact Ht).
  clearbody t. rewrite MakeDay_month in HD by exact Hm.
  assert (HY : YearFromTime t = y).
  { unfold YearFromTime. rewrite HD. apply YearFromDay_unique.
    rewrite DayFromYear_step. unfold DaysInYear.
    destruct (InLeapYear_of y);
      each_month m ltac:(cbn [month_start DaysInMonth] in Hd |- *; lia). }
  assert (HW : DayWithinYear t
               = month_start m (if InLeapYear_of y then 1 else 0) + dt - 1).
  { unfold DayWithinYear. rewrite HY, HD. lia. }
  assert (HL : InLeapYear t = if InLeapYear_of y then 1 else 0).
  { unfold InLeapYear. rewrite HY. reflexivity. }
  assert (HMo : MonthFromTime t = m).
  { unfold MonthFromTime. rewrite HW, HL.
    destruct (InLeapYear_of y);
      each_month m ltac:(cbn [month_start DaysInMonth] in Hd |- *;
                         decide_ltb; reflexivity). }
  split; [exact HY|]. split; [exact HMo|].
  unfold DateFromTime. rewrite HMo, HW, HL. clear HMo HD HY HW HL.
  destruct (InLeapYear_of y); each_month m ltac:(cbv [month_start]; lia).
Qed.

Lemma MakeFullYear_cases year :
  (0 <= year <= 99 /\ MakeFullYear year = 1900 + year)
  \/ ((year < 0 \/ 99 < year) /\ MakeFullYear year = year).
Proof.
  unfold MakeFullYear.
  destruct (Z.leb_spec 0 year); destruct (Z.leb_spec year 99); cbn [andb]; lia.
Qed.

Lemma UTC_value year mn dt :
  UTC year mn dt = TimeClip (MakeDay (MakeFullYear year) mn dt * msPerDay).
Proof.
  unfold UTC, MakeDate. f_equal. change (MakeTime 0 0 0 0) with 0. lia.
Qed.

Lemma TimeClip_Some t : Z.abs t <= 8640000000000000 -> TimeClip t = Some t.
Proof.
  intros H. unfold TimeClip. rewrite Z.gtb_ltb.
  destruct (Z.ltb_spec 8640000000000000 (Z.abs t)); [lia | reflexivity].
Qed.

Lemma TimeClip_None t : 8640000000000000 < Z.abs t -> TimeClip t = None.
Proof.
  intros H. unfold TimeClip. rewrite Z.gtb_ltb.
  destruct (Z.ltb_spec 8640000000000000 (Z.abs t)); [reflexivity | lia].
Qed.

(** Bounds on the day numbers of 1 September and 31 August. *)
Ltac day_bounds :=
  rewrite MakeDay_month by lia; unfold month_start, msPerDay;
  match goal with
  | |- context [MakeFullYear ?y] =>
      destruct (MakeFullYear_cases y) as [[? ->]|[? ->]]
  end;
  unfold DayFromYear; destruct (InLeapYear_of _);
  Z.div_mod_to_equations; lia.

Lemma start_day_bounds year :
  -271821 <= year <= 275760 ->
  Z.abs (MakeDay (MakeFullYear year) 8 1 * msPerDay) <= 8640000000000000.
Proof. intros H. day_bounds. Qed.

Lemma end_day_bounds year :
  -271820 <= year <= 275760 ->
  Z.abs (MakeDay (MakeFullYear year) 7 31 * msPerDay) <= 8640000000000000.
Proof. intros H. day_bounds. Qed.

Lemma start_day_beyond year :
  year < -271821 ->
  8640000000000000 < Z.abs (MakeDay (MakeFullYear year) 8 1 * msPerDay).
Proof. intros H. day_bounds. Qed.

Lemma end_day_beyond year :
  275760 < year ->
  8640000000000000 < Z.abs (MakeDay (MakeFullYear year) 7 31 * msPerDay).
Proof. intros H. day_bounds. Qed.

Example time_value_range :
  UTC 275760 8 13 = Some 8640000000000000
  /\ UTC 275760 8 14 = None
  /\ UTC (-271821) 3 20 = Some (-8640000000000000)
  /\ UTC (-271821) 3 19 = None
  /\ UTC 1970 0 1 = Some 0.
Proof. vm_compute. repeat split. Qed.

(** ** ISO strings *)

Lemma no_T_app a b : no_T (a ++ b) = no_T a && no_T b.
Proof. apply forallb_app. Qed.

Lemma split_first_no_T a b :
  no_T a = true -> split_first 84%N (a ++ 84%N :: b) = a.
Proof.
  induction a as [|c a IH]; intros H.
  - reflexivity.
  - cbn [no_T forallb] in H. apply andb_prop in H. destruct H as [Hc Ha].
    simpl. destruct (N.eqb c 84); [discriminate|]. f_equal. apply IH. exact Ha.
Qed.

Lemma no_T_uint d : no_T (uint_units d) = true.
Proof.
  induction d; cbn [uint_units no_T forallb]; try reflexivity; exact IHd.
Qed.

Lemma no_T_decimal_string z : no_T (decimal_string z) = true.
Proof.
  destruct z; cbn [decimal_string]; [reflexivity| |];
    [|cbn [no_T forallb]]; apply no_T_uint.
Qed.

Lemma no_T_pad n s : no_T s = true -> no_T (pad_zero n s) = true.
Proof.
  intros H. unfold pad_zero. rewrite no_T_app, H, andb_true_r.
  induction (n - List.length s)%nat; cbn; auto.
Qed.

Lemma no_T_iso_year y : no_T (iso_year y) = true.
Proof.
  unfold iso_year. destruct (_ && _).
  - apply no_T_pad, no_T_decimal_string.
  - rewrite no_T_app. destruct (y <? 0); cbn [js no_T forallb];
      (rewrite no_T_pad; [reflexivity | apply no_T_decimal_string]).
Qed.

(** The date part of the ISO string of midnight of a civil date. *)
Lemma toISOString_civil y mn dt :
  0 <= mn <= 11 ->
  1 <= dt <= DaysInMonth mn (if InLeapYear_of y then 1 else 0) ->
  exists s,
    toISOString (Some (MakeDay y mn dt * msPerDay)) = Returns s
    /\ split_first 84%N s
       = iso_year y ++ js "-" ++ two (mn + 1) ++ js "-" ++ two dt.
Proof.
  intros Hm Hd.
  destruct (civil_roundtrip y mn dt 0 Hm Hd) as (HY & HM & HD);
    [unfold msPerDay; lia|].
  unfold MakeDate in HY, HM, HD. rewrite Z.add_0_r in HY, HM, HD.
  eexists. split; [reflexivity|]. rewrite HY, HM, HD.
  repeat rewrite (app_assoc _ _ (js "T" ++ _)).
  change (js "T" ++ ?x) with (84%N :: x).
  rewrite split_first_no_T; [reflexivity|].
  rewrite !no_T_app, no_T_iso_year. unfold two.
  rewrite !no_T_pad by apply no_T_decimal_string. reflexivity.
Qed.

Lemma iso_year_four_digits y :
  0 <= y <= 9999 -> iso_year y = decimal_digits 4 y.
Proof.
  intros H.
  assert (A : forallb (fun z => jsstring_eqb (iso_year z) (decimal_digits 4 z))
                (zrange (Z.to_nat 10000) 0) = true)
    by (vm_compute; reflexivity).
  rewrite forallb_forall in A.
  apply jsstring_eqb_eq, A, in_zrange. lia.
Qed.

Example toISOString_examples :
  toISOString (Date.new (UTC 2025 8 1)) = Returns (js "2025-09-01T00:00:00.000Z")
  /\ toISOString (Date.new (UTC 50 8 1)) = Returns (js "1950-09-01T00:00:00.000Z")
  /\ toISOString (Date.new (UTC 10000 8 1))
     = Returns (js "+010000-09-01T00:00:00.000Z")
  /\ toISOString (Date.new (UTC (-5) 8 1))
     = Returns (js "-000005-09-01T00:00:00.000Z")
  /\ toISOString (Date.new (UTC 275761 7 31)) = Throws RangeError.
Proof. vm_compute. repeat split. Qed.

(** ** academicYear *)

Lemma Number_toString_safe z :
  is_safe_integer z -> Number_toString z = decimal_string z.
Proof.
  unfold is_safe_integer, Number_toString. intros H.
  destruct (Z.leb_spec (Z.abs z) (2 ^ 53 - 1)); [reflexivity | lia].
Qed.

Lemma ToString_safe z :
  is_safe_integer z -> ToString (InputNumber z) = decimal_string z.
Proof.
  intros H. pose proof H as Hs. unfold is_safe_integer in H.
  unfold ToString, round_double.
  destruct (Z.leb_spec (Z.abs z) (2 ^ 53)); [|lia].
  assert (Hp : 2 ^ 53 < 2 ^ 1024) by (apply Z.pow_lt_mono_r; lia).
  destruct (Z.leb_spec (2 ^ 1024) (Z.abs z)); [lia|].
  apply Number_toString_safe. exact Hs.
Qed.

Lemma parseInt_safe z : is_safe_integer z -> parseInt (InputNumber z) = Some z.
Proof.
  intros H. unfold parseInt. rewrite ToString_safe by exact H.
  apply parseInt10_decimal_string.
Qed.

Lemma in_date_range_safe year :
  -271821 <= year <= 275760 -> is_safe_integer year.
Proof. unfold is_safe_integer. lia. Qed.

Lemma academicYear_unparsed i :
  parseInt i = None ->
  academicYear i
  = ([ {| message := js "Invalid academic year input:"; argument := i |} ],
     Returns None).
Proof. intros Hp. unfold academicYear. rewrite Hp. reflexivity. Qed.

Lemma academicYear_in_range i year :
  parseInt i = Some year -> in_date_range year ->
  academicYear i = ([], Returns (Some (info_of year))).
Proof.
  intros Hp [Hlo Hhi]. unfold academicYear. rewrite Hp, !UTC_value.
  rewrite (TimeClip_Some _ (start_day_bounds year ltac:(lia))).
  rewrite (TimeClip_Some _ (end_day_bounds (year + 1) ltac:(lia))).
  cbn [Date.new].
  rewrite (TimeClip_Some _ (start_day_bounds year ltac:(lia))).
  rewrite (TimeClip_Some _ (end_day_bounds (year + 1) ltac:(lia))).
  destruct (toISOString_civil (MakeFullYear year) 8 1) as (s & Es & Hs);
    [lia | cbn [DaysInMonth]; lia |].
  destruct (toISOString_civil (MakeFullYear (year + 1)) 7 31)
    as (e & Ee & He); [lia | cbn [DaysInMonth]; lia |].
  rewrite Es, Ee. cbn [bind]. rewrite Hs, He.
  rewrite (Number_toString_safe year), (Number_toString_safe (year + 1))
    by (apply in_date_range_safe; lia).
  reflexivity.
Qed.

Lemma academicYear_out_of_range i year :
  parseInt i = Some year -> ~ in_date_range year ->
  academicYear i = ([], Throws RangeError).
Proof.
  intros Hp Hr. unfold academicYear. rewrite Hp, !UTC_value.
  unfold in_date_range in Hr.
  destruct (Z_lt_le_dec year (-271821)) as [L|G].
  - rewrite (TimeClip_None _ (start_day_beyond year L)). reflexivity.
  - rewrite (TimeClip_None (MakeDay (MakeFullYear (year + 1)) 7 31 * msPerDay)
               (end_day_beyond (year + 1) ltac:(lia))).
    cbn [Date.new].
    destruct (Date.new (TimeClip (MakeDay (MakeFullYear year) 8 1 * msPerDay)));
      reflexivity.
Qed.

Lemma in_date_range_dec year : {in_date_range year} + {~ in_date_range year}.
Proof.
  unfold in_date_range.
  destruct (Z_le_dec (-271821) year); [destruct (Z_le_dec year 275759)|];
    [left | right | right]; lia.
Qed.

(** A year from 0 to 99 is taken by [Date.UTC] for 1900 + year. *)
Example academicYear_year_50 :
  exists r,
    academicYear (InputNumber 50) = ([], Returns (Some r))
    /\ start r = js "1950-09-01" /\ end_ r = js "1951-08-31"
    /\ rangeFull r = js "50-51".
Proof. eexists. split; [vm_compute; reflexivity|]. repeat split. Qed.

(** The two-digit forms are cut from the string, not computed modulo
    100: year -2025 is followed by -2024. *)
Example academicYear_negative_year :
  exists r,
    academicYear (InputNumber (-2025)) = ([], Returns (Some r))
    /\ start r = js "-002025-09-01"
    /\ rangeShort r = js "25-24" /\ rangeMixed r = js "-2025-24".
Proof. eexists. split; [vm_compute; reflexivity|]. repeat split. Qed.

(** Claim C2, amended.  For every input that [academicYear] parses to a
    year from 100 to 9998, the returned object's [start] is the string
    YYYY-MM-DD of 1 September of that year and its [end] the string
    YYYY-MM-DD of 31 August of the next year. *)
Theorem academicYear_start_end i year :
  parseInt i = Some year -> 100 <= year <= 9998 ->
  exists r,
    academicYear i = ([], Returns (Some r))
    /\ start r = iso_date year 9 1
    /\ end_ r = iso_date (year + 1) 8 31.
Proof.
  intros Hp Hy. exists (info_of year). split.
  - apply academicYear_in_range; [exact Hp | unfold in_date_range; lia].
  - cbn [info_of start end_].
    destruct (MakeFullYear_cases year) as [[R _]|[_ ->]]; [lia|].
    destruct (MakeFullYear_cases (year + 1)) as [[R _]|[_ ->]]; [lia|].
    rewrite !iso_year_four_digits by lia. split; reflexivity.
Qed.

Lemma academicYear_start_end_witness :
  exists r,
    academicYear (InputString (js "2025")) = ([], Returns (Some r))
    /\ start r = iso_date 2025 9 1
    /\ end_ r = iso_date (2025 + 1) 8 31.
Proof.
  apply (academicYear_start_end (InputString (js "2025")) 2025);
    [reflexivity | lia].
Defined.

(** Claim C2 as stated fails on a parsed year above 9999: the ISO string
    then carries a sign and six digits of year, and [start] is not the
    YYYY-MM-DD string of 1 September of that year. *)
Lemma academicYear_start_year_10000 :
  parseInt (InputNumber 10000) = Some 10000
  /\ exists r,
       academicYear (InputNumber 10000) = ([], Returns (Some r))
       /\ start r = js "+010000-09-01"
       /\ List.length (start r) = 13%nat
       /\ start r <> iso_date 10000 9 1.
Proof.
  split; [reflexivity|]. eexists. split; [vm_compute; reflexivity|].
  split; [reflexivity|]. split; [reflexivity|]. vm_compute. discriminate.
Qed.

(** Claim C4.  [academicYear(2025)] returns the object with start
    2025-09-01, end 2026-08-31, rangeFull 2025-2026, rangeShort 25-26,
    rangeCompact 2526, rangeMixed 2025-26 and the label 2025, U+2013,
    2026; it logs nothing. *)
Theorem academicYear_2025 :
  academicYear (InputNumber 2025)
  = ([], Returns (Some {|
       start := js "2025-09-01";
       end_ := js "2026-08-31";
       rangeFull := js "2025-2026";
       rangeShort := js "25-26";
       rangeCompact := js "2526";
       rangeMixed := js "2025-26";
       label := js "2025" ++ [0x2013%N] ++ js "2026" |})).
Proof. vm_compute. reflexivity. Qed.

(** Claim C5.  At any instant [now] of a calendar date (year, month
    [mn] counted from 0, day [dt]) in UTC, the clock's getters read that
    date back and [currentAcademicYear] returns year - 1 from January to
    August and year from September, 1 September included, to December. *)
Theorem currentAcademicYear_by_month year mn dt tod :
  0 <= mn <= 11 ->
  1 <= dt <= DaysInMonth mn (if InLeapYear_of year then 1 else 0) ->
  0 <= tod < msPerDay ->
  let now := MakeDate (MakeDay year mn dt) tod in
  YearFromTime now = year /\ MonthFromTime now = mn /\ DateFromTime now = dt
  /\ (mn < 8 -> currentAcademicYear now = year - 1)
  /\ (8 <= mn -> currentAcademicYear now = year).
Proof.
  intros Hm Hd Ht now.
  destruct (civil_roundtrip year mn dt tod Hm Hd Ht) as (HY & HM & HD).
  fold now in HY, HM, HD. clearbody now.
  repeat split; try assumption; intros H; unfold currentAcademicYear;
    rewrite HY, HM; destruct (Z.ltb_spec mn 8); lia.
Qed.

Lemma currentAcademicYear_by_month_witness :
  currentAcademicYear (MakeDate (MakeDay 2025 8 1) 0) = 2025
  /\ currentAcademicYear (MakeDate (MakeDay 2025 7 31) (msPerDay - 1)) = 2024.
Proof.
  split.
  - apply (currentAcademicYear_by_month 2025 8 1 0);
      [lia | vm_compute; split; discriminate | vm_compute; split; congruence
       | lia].
  - apply (currentAcademicYear_by_month 2025 7 31 (msPerDay - 1));
      [lia | vm_compute; split; discriminate | vm_compute; split; congruence
       | lia].
Defined.

Example currentAcademicYear_examples :
  currentAcademicYear (MakeDate (MakeDay 2025 6 15) 0) = 2024
  /\ currentAcademicYear (MakeDate (MakeDay 2025 9 1) 0) = 2025
  /\ currentAcademicYear (MakeDate (MakeDay 2025 8 1) 0) = 2025.
Proof. vm_compute. repeat split. Qed.

(** Claim C6, amended.  [academicYear] returns null exactly when
    [parseInt] fails; it then logs one diagnostic and does nothing else.
    An input that parses to a year between -271821 and 275759 gives an
    object and no log; outside that range no date exists and
    [toISOString] raises a RangeError. *)
Theorem academicYear_null_iff_unparsed i :
  (snd (academicYear i) = Returns None <-> parseInt i = None)
  /\ (parseInt i = None ->
      academicYear i
      = ([ {| message := js "Invalid academic year input:"; argument := i |} ],
         Returns None))
  /\ (forall year, parseInt i = Some year -> in_date_range year ->
      exists r, academicYear i = ([], Returns (Some r)))
  /\ (forall year, parseInt i = Some year -> ~ in_date_range year ->
      academicYear i = ([], Throws RangeError)).
Proof.
  split; [|split; [|split]].
  - split.
    + intros H. destruct (parseInt i) as [year|] eqn:Hp; [|reflexivity].
      exfalso. destruct (in_date_range_dec year) as [R|R].
      * rewrite (academicYear_in_range i year Hp R) in H. discriminate H.
      * rewrite (academicYear_out_of_range i year Hp R) in H. discriminate H.
    + intros Hp. rewrite (academicYear_unparsed i Hp). reflexivity.
  - apply academicYear_unparsed.
  - intros year Hp Hr. exists (info_of year).
    apply academicYear_in_range; assumption.
  - intros year Hp Hr.
    apply academicYear_out_of_range with (year := year); assumption.
Qed.

Lemma academicYear_null_iff_unparsed_witness :
  academicYear (InputString (js "abc"))
  = ([ {| message := js "Invalid academic year input:";
          argument := InputString (js "abc") |} ], Returns None)
  /\ exists r, academicYear (InputString (js "2025")) = ([], Returns (Some r)).
Proof.
  split.
  - apply (academicYear_null_iff_unparsed (InputString (js "abc"))).
    reflexivity.
  - apply (proj1 (proj2 (proj2
             (academicYear_null_iff_unparsed (InputString (js "2025")))))
             2025); [reflexivity | unfold in_date_range; lia].
Defined.

(** Claim C6 as stated fails on year 275760: the input parses, 31 August
    275761 is beyond the last date, and the call raises instead of
    returning an object. *)
Lemma academicYear_year_275760 :
  parseInt (InputNumber 275760) = Some 275760
  /\ academicYear (InputNumber 275760) = ([], Throws RangeError)
  /\ UTC 275760 8 1 = Some 8639998963200000
  /\ UTC (275760 + 1) 7 31 = None.
Proof. vm_compute. repeat split. Qed.

(** Claim C7.  For a parsed year of at least four decimal digits, the
    two-digit forms are the last two characters of the decimal strings
    of year and year + 1: rangeShort joins them with a hyphen,
    rangeCompact with nothing, and rangeMixed is the whole year, a
    hyphen and the second form.  The object carrying them is returned
    whenever the year is in the range of dates. *)
Theorem academicYear_two_digit_forms i year :
  parseInt i = Some year ->
  (4 <= decimal_digit_count year)%nat ->
  exists shortStart shortEnd,
    last_two_of (decimal_string year) shortStart
    /\ last_two_of (decimal_string (year + 1)) shortEnd
    /\ (forall r, snd (academicYear i) = Returns (Some r) ->
        rangeShort r = shortStart ++ js "-" ++ shortEnd
        /\ rangeCompact r = shortStart ++ shortEnd
        /\ rangeMixed r = decimal_string year ++ js "-" ++ shortEnd)
    /\ (in_date_range year ->
        exists r, snd (academicYear i) = Returns (Some r)).
Proof.
  intros Hp Hd. apply four_digits_magnitude in Hd.
  exists (slice_last 2 (decimal_string year)),
         (slice_last 2 (decimal_string (year + 1))).
  split; [apply slice_last_two, length_decimal_string_ge2; lia|].
  split; [apply slice_last_two, length_decimal_string_ge2; lia|].
  split.
  - intros r Hr. destruct (in_date_range_dec year) as [R|R].
    + rewrite (academicYear_in_range i year Hp R) in Hr.
      cbn [snd] in Hr. injection Hr as <-. repeat split.
    + rewrite (academicYear_out_of_range i year Hp R) in Hr. discriminate Hr.
  - intros Hr. exists (info_of year).
    rewrite (academicYear_in_range i year Hp Hr). reflexivity.
Qed.

Lemma academicYear_two_digit_forms_witness :
  exists shortStart shortEnd,
    last_two_of (decimal_string 2025) shortStart
    /\ last_two_of (decimal_string (2025 + 1)) shortEnd
    /\ (forall r,
          snd (academicYear (InputString (js "2025"))) = Returns (Some r) ->
          rangeShort r = shortStart ++ js "-" ++ shortEnd
          /\ rangeCompact r = shortStart ++ shortEnd
          /\ rangeMixed r = decimal_string 2025 ++ js "-" ++ shortEnd)
    /\ (in_date_range 2025 ->
        exists r,
          snd (academicYear (InputString (js "2025"))) = Returns (Some r)).
Proof.
  apply (academicYear_two_digit_forms (InputString (js "2025")) 2025);
    [reflexivity | vm_compute; lia].
Defined.

(** ** Property reads *)

Lemma index_key_head i :
  exists c r, index_key i = c :: r /\ is_digit c = true
              /\ forallb is_digit (c :: r) = true
              /\ digits_value (c :: r) = Z.of_nat i.
Proof.
  unfold index_key. destruct (Z.of_nat i) as [|p|p] eqn:E; [| |lia].
  - exists 48%N, []. repeat split.
  - cbn [decimal_string].
    destruct (uint_units_head p) as (c & r & Eu & Hc).
    exists c, r. rewrite <- Eu.
    repeat split; [exact Hc | apply all_digits_uint |].
    rewrite digits_value_uint, DecimalN.Unsigned.of_to. reflexivity.
Qed.

Lemma array_index_index_key i : array_index (index_key i) = Some i.
Proof.
  destruct (index_key_head i) as (c & r & E & Hc & Ha & Hv).
  unfold array_index. rewrite E, Ha, Hv, Nat2Z.id, <- E, jsstring_eqb_refl.
  reflexivity.
Qed.

Lemma index_key_not_length i : jsstring_eqb (index_key i) (js "length") = false.
Proof.
  destruct (index_key_head i) as (c & r & E & Hc & _).
  rewrite E. change (js "length") with (108%N :: js "ength").
  cbn [jsstring_eqb]. apply digit_bounds in Hc.
  destruct (N.eqb_spec c 108); [lia | reflexivity].
Qed.

Lemma own_property_element l i :
  own_property (VArr l) (index_key i)
  = match nth_error l i with Some e => e | None => VUndefined end.
Proof.
  cbn [own_property]. rewrite index_key_not_length, array_index_index_key.
  reflexivity.
Qed.

Lemma cell_of_array l i :
  cell_of (VArr l) i
  = match nth_error l i with Some v => nullish v VNull | None => VNull end.
Proof.
  unfold cell_of. rewrite own_property_element.
  destruct (nth_error l i); reflexivity.
Qed.

Lemma Get_optional_cell column i :
  bind (Get_optional column (index_key i))
       (fun cell => Returns (nullish cell VNull))
  = Returns (cell_of column i).
Proof. destruct column; reflexivity. Qed.

Lemma nullish_defined v : v <> VUndefined -> nullish v VNull = v.
Proof. destruct v; intros H; try reflexivity. contradiction. Qed.

Lemma lookup_in k v props :
  NoDup (map fst props) -> In (k, v) props -> lookup k props = Some v.
Proof.
  induction props as [|[k' v'] r IH]; cbn [lookup map fst In]; intros ND H;
    [contradiction|].
  inversion ND as [|? ? Hn ND']; subst.
  destruct H as [E|H].
  - inversion E; subst. rewrite jsstring_eqb_refl. reflexivity.
  - rewrite jsstring_eqb_neq; [apply IH; assumption|].
    intros ->. apply Hn. apply (in_map fst) in H. exact H.
Qed.

Lemma lookup_map (f : value -> value) k c cols :
  NoDup (map fst cols) -> In (k, c) cols ->
  lookup k (map (fun kc => (fst kc, f (snd kc))) cols) = Some (f c).
Proof.
  intros ND H. apply lookup_in.
  - rewrite map_map. cbn [fst]. exact ND.
  - apply (in_map (fun kc => (fst kc, f (snd kc)))) in H. exact H.
Qed.

Lemma define_prop_new props k v :
  ~ In k (map fst props) -> define_prop props k v = props ++ [(k, v)].
Proof.
  induction props as [|[k' v'] r IH]; cbn [define_prop map fst In]; intros H;
    [reflexivity|].
  rewrite jsstring_eqb_neq by (intros E; apply H; left; exact E).
  rewrite <- app_comm_cons. f_equal. apply IH. intros Hin. apply H. right.
  exact Hin.
Qed.

Lemma ordinary_key_true k : ordinary_key k = true <-> k <> js "__proto__".
Proof.
  unfold ordinary_key. rewrite negb_true_iff. split.
  - intros H E. rewrite E, jsstring_eqb_refl in H. discriminate H.
  - apply jsstring_eqb_neq.
Qed.

Lemma set_prop_ordinary props k v :
  ordinary_key k = true -> ~ In k (map fst props) ->
  set_prop props k v = props ++ [(k, v)].
Proof.
  intros Hk Hn. unfold set_prop. unfold ordinary_key in Hk.
  apply negb_true_iff in Hk. rewrite Hk. apply define_prop_new. exact Hn.
Qed.

Lemma set_prop_proto props k v :
  ordinary_key k = false -> set_prop props k v = props.
Proof.
  intros Hk. unfold set_prop. unfold ordinary_key in Hk.
  apply negb_false_iff in Hk. rewrite Hk. reflexivity.
Qed.

Lemma own_columns_app a b : own_columns (a ++ b) = own_columns a ++ own_columns b.
Proof. apply filter_app. Qed.

Lemma own_columns_keys cols :
  map fst (own_columns cols) = filter ordinary_key (map fst cols).
Proof.
  induction cols as [|[k c] r IH]; [reflexivity|].
  cbn [own_columns filter map fst]. fold (own_columns r).
  destruct (ordinary_key k); cbn [map fst]; rewrite IH; reflexivity.
Qed.


Lemma own_columns_NoDup cols :
  NoDup (map fst cols) -> NoDup (map fst (own_columns cols)).
Proof. intros H. rewrite own_columns_keys. apply NoDup_filter. exact H. Qed.

Lemma own_columns_in k c cols :
  In (k, c) cols -> k <> js "__proto__" -> In (k, c) (own_columns cols).
Proof.
  intros Hin Hk. apply filter_In. split; [exact Hin|].
  apply ordinary_key_true. exact Hk.
Qed.

Lemma lookup_not_in k props : ~ In k (map fst props) -> lookup k props = None.
Proof.
  induction props as [|[k' v] r IH]; cbn [lookup map fst In]; intros H;
    [reflexivity|].
  rewrite jsstring_eqb_neq by (intros E; apply H; left; exact E).
  apply IH. intros Hin. apply H. right. exact Hin.
Qed.

Lemma mapM_Returns {A B} (f : A -> outcome B) (g : A -> B) l :
  (forall a, f a = Returns (g a)) -> mapM f l = Returns (map g l).
Proof.
  intros H. induction l as [|a l IH]; cbn [mapM map]; [reflexivity|].
  rewrite H, IH. reflexivity.
Qed.

Lemma nth_error_rows cols n i :
  (i < n)%nat ->
  nth_error (map (row_of cols) (seq 0 n)) i = Some (row_of cols i).
Proof.
  intros H. rewrite nth_error_map, nth_error_seq.
  destruct (Nat.ltb_spec i n); [reflexivity | lia].
Qed.

(** ** transformToRows on a mapping *)

Section Rows.

Variable coerce_length : value -> outcome Z.
Variable cols : list (jsstring * value).
Hypothesis cols_NoDup : NoDup (map fst cols).

(** The loop over the keys writes one property per column other than
    [__proto__], in order. *)
Lemma fill_row_fold i : forall (todo done : list (jsstring * value)),
  cols = done ++ todo ->
  fold_left
    (fun acc key =>
       row <- acc ;;
       column <- Get (VObj cols) key ;;
       cell <- Get_optional column (index_key i) ;;
       Returns (set_prop row key (nullish cell VNull)))
    (map fst todo)
    (Returns (map (fun kc => (fst kc, cell_of (snd kc) i)) (own_columns done)))
  = Returns (map (fun kc => (fst kc, cell_of (snd kc) i)) (own_columns cols)).
Proof.
  induction todo as [|[k c] todo IH]; intros done E.
  - rewrite app_nil_r in E. subst done. reflexivity.
  - cbn [map fst fold_left]. cbn [bind Get].
    assert (Hl : lookup k cols = Some c).
    { apply lookup_in; [exact cols_NoDup|]. rewrite E. apply in_or_app.
      right. left. reflexivity. }
    cbn [own_property]. rewrite Hl.
    pose proof (Get_optional_cell c i) as Hc.
    destruct (Get_optional c (index_key i)) as [cell|e] eqn:Eg;
      [|discriminate Hc].
    cbn [bind] in Hc |- *. injection Hc as Hc. rewrite Hc.
    specialize (IH (done ++ [(k, c)])).
    rewrite own_columns_app in IH. cbn [own_columns filter fst] in IH.
    destruct (ordinary_key k) eqn:Hk.
    + rewrite set_prop_ordinary; [|exact Hk|].
      * rewrite map_app in IH. cbn [map fst snd] in IH. apply IH.
        rewrite <- app_assoc. exact E.
      * rewrite map_map. cbn [fst]. change (fun x => fst x) with (@fst jsstring value).
        rewrite own_columns_keys.
        pose proof cols_NoDup as ND. rewrite E, map_app in ND.
        cbn [map fst] in ND. apply NoDup_remove_2 in ND.
        intros Hin. apply filter_In in Hin. apply ND. apply in_or_app. left.
        apply Hin.
    + rewrite set_prop_proto by exact Hk. rewrite app_nil_r in IH. apply IH.
      rewrite <- app_assoc. exact E.
Qed.

Lemma fill_row_columns i :
  fill_row (VObj cols) (map fst cols) i = Returns (row_of cols i).
Proof.
  unfold fill_row. pose proof (fill_row_fold i cols [] eq_refl) as H.
  change (map (fun kc => (fst kc, cell_of (snd kc) i)) (own_columns []))
    with (@nil (jsstring * value)) in H.
  rewrite H. reflexivity.
Qed.

Lemma Array_from_length_number n f g :
  0 <= n <= 2 ^ 32 - 1 ->
  (forall i, f i = Returns (g i)) ->
  Array_from_length coerce_length (VNum n) f
  = Returns (VArr (map g (seq 0 (Z.to_nat n)))).
Proof.
  intros Hn Hf. unfold Array_from_length, ToLength. cbn [bind].
  replace (Z.min (Z.max n 0) (2 ^ 53 - 1)) with n by lia.
  rewrite Z.gtb_ltb. destruct (Z.ltb_spec (2 ^ 32 - 1) n); [lia|].
  rewrite (mapM_Returns f g) by exact Hf. reflexivity.
Qed.

(** The rows of a mapping whose first column has the [length] [n]. *)
Lemma transformToRows_length k0 c0 rest n :
  cols = (k0, c0) :: rest ->
  Get_optional c0 (js "length") = Returns (VNum (Z.of_nat n)) ->
  Z.of_nat n <= 2 ^ 32 - 1 ->
  transformToRows coerce_length (VObj cols)
  = Returns (VArr (map (row_of cols) (seq 0 n))).
Proof.
  intros E Hlen Hn. unfold transformToRows.
  cbn [truthy typeof negb orb].
  change (jsstring_eqb (js "object") (js "object")) with true.
  cbn [negb Object_keys].
  assert (Hk : first_key (map fst cols) = k0) by (rewrite E; reflexivity).
  rewrite Hk. cbn [Get bind own_property].
  assert (Hl : lookup k0 cols = Some c0).
  { apply lookup_in; [exact cols_NoDup|]. rewrite E. left. reflexivity. }
  rewrite Hl, Hlen. cbn [bind].
  assert (Hor : or_else (VNum (Z.of_nat n)) (VNum 0) = VNum (Z.of_nat n)).
  { unfold or_else. cbn [truthy].
    destruct (Z.eqb_spec (Z.of_nat n) 0) as [->|]; reflexivity. }
  rewrite Hor.
  rewrite (Array_from_length_number _ _ (row_of cols));
    [|lia|apply fill_row_columns].
  rewrite Nat2Z.id. reflexivity.
Qed.

(** Row [i] of the result, property by property. *)
Lemma row_of_cells i :
  exists props,
    row_of cols i = VObj props
    /\ map fst props = filter ordinary_key (map fst cols)
    /\ lookup (js "__proto__") props = None
    /\ forall k l, In (k, VArr l) cols -> k <> js "__proto__" ->
         ((List.length l <= i)%nat -> lookup k props = Some VNull)
         /\ (forall v, nth_error l i = Some v ->
             lookup k props = Some (nullish v VNull)
             /\ (v <> VUndefined -> lookup k props = Some v)).
Proof.
  exists (map (fun kc => (fst kc, cell_of (snd kc) i)) (own_columns cols)).
  assert (Hkeys : map fst (map (fun kc => (fst kc, cell_of (snd kc) i))
                             (own_columns cols))
                  = filter ordinary_key (map fst cols)).
  { rewrite map_map. cbn [fst]. apply own_columns_keys. }
  split; [reflexivity|]. split; [exact Hkeys|]. split.
  - apply lookup_not_in. rewrite Hkeys. intros Hin. apply filter_In in Hin.
    destruct Hin as [_ Hk]. apply ordinary_key_true in Hk. apply Hk.
    reflexivity.
  - intros k l Hin Hk.
    rewrite (lookup_map (fun c => cell_of c i) k (VArr l) (own_columns cols)
               (own_columns_NoDup cols cols_NoDup)
               (own_columns_in k (VArr l) cols Hin Hk)).
    rewrite cell_of_array. split.
    + intros Hs. apply nth_error_None in Hs. rewrite Hs. reflexivity.
    + intros v Hv. rewrite Hv. split; [reflexivity|].
      intros Hd. rewrite nullish_defined by exact Hd. reflexivity.
Qed.

End Rows.







(** Claim C10.  When the first key binds a sequence shorter than that
    of another key, there are only as many rows as the first sequence is
    long: the values of the longer sequence beyond that length appear in
    no row, and the first sequence is not padded.  When the value bound
    to the first key has no [length] ([null], a number, a boolean), the
    result is empty whatever the other keys bind. *)
Theorem transformToRows_first_column_decides coerce k0 rest :
  (forall l0,
     NoDup (map fst ((k0, VArr l0) :: rest)) ->
     Z.of_nat (List.length l0) <= 2 ^ 32 - 1 ->
     (exists k l, In (k, VArr l) rest /\ (List.length l0 < List.length l)%nat) ->
     exists rows,
       transformToRows coerce (VObj ((k0, VArr l0) :: rest))
       = Returns (VArr rows)
       /\ List.length rows = List.length l0
       /\ forall i, (i < List.length l0)%nat ->
          exists props,
            nth_error rows i = Some (VObj props)
            /\ forall k l v, In (k, VArr l) rest -> k <> js "__proto__" ->
                 nth_error l i = Some v ->
                 lookup k props = Some (nullish v VNull))
  /\ (forall c0,
        Get_optional c0 (js "length") = Returns VUndefined ->
        transformToRows coerce (VObj ((k0, c0) :: rest)) = Returns (VArr [])).
Proof.
  split.
  - intros l0 ND HL _.
    set (cols := (k0, VArr l0) :: rest) in *.
    exists (map (row_of cols) (seq 0 (List.length l0))).
    split; [|split; [rewrite length_map, length_seq; reflexivity|]].
    + apply (transformToRows_length coerce _ ND k0 (VArr l0) rest _ eq_refl);
        [reflexivity | exact HL].
    + intros i Hi.
      destruct (row_of_cells cols ND i) as (props & Er & Hk & Hp & Hc).
      exists props. rewrite nth_error_rows by exact Hi.
      split; [rewrite Er; reflexivity|].
      intros k l v Hin Hk' Hv.
      apply (proj1 (proj2 (Hc k l (or_intror Hin) Hk') v Hv)).
  - intros c0 Hlen. unfold transformToRows.
    cbn [truthy typeof negb orb].
    change (jsstring_eqb (js "object") (js "object")) with true.
    cbn [negb Object_keys map fst first_key Get own_property lookup bind].
    rewrite jsstring_eqb_refl. rewrite Hlen. reflexivity.
Qed.

Lemma transformToRows_first_column_decides_witness :
  (exists rows,
     transformToRows (fun _ => Returns 0)
       (VObj [(js "a", VArr [VNum 1]); (js "b", VArr [VNum 7; VNum 8])])
     = Returns (VArr rows)
     /\ List.length rows = 1%nat)
  /\ transformToRows (fun _ => Returns 0)
       (VObj [(js "a", VNull); (js "b", VArr [VNum 7; VNum 8])])
     = Returns (VArr [])
  /\ transformToRows (fun _ => Returns 0)
       (VObj [(js "a", VNum 5); (js "b", VArr [VNum 7; VNum 8])])
     = Returns (VArr []).
Proof.
  split; [|split].
  - destruct (proj1 (transformToRows_first_column_decides (fun _ => Returns 0)
                       (js "a") [(js "b", VArr [VNum 7; VNum 8])]) [VNum 1])
      as (rows & E & Hlen & _).
    + repeat constructor; cbn; intuition discriminate.
    + vm_compute. discriminate.
    + exists (js "b"), [VNum 7; VNum 8]. split; [left; reflexivity | cbn; lia].
    + exists rows. split; [exact E | exact Hlen].
  - apply (transformToRows_first_column_decides (fun _ => Returns 0)).
    reflexivity.
  - apply (transformToRows_first_column_decides (fun _ => Returns 0)).
    reflexivity.
Defined.

(** An array is an object: its indices are its keys, and it is
    transposed like a mapping. *)
Example transformToRows_array_input coerce :
  transformToRows coerce (VArr [VArr [VNum 1; VNum 2]; VStr (js "xy")])
  = Returns (VArr [VObj [(js "0", VNum 1); (js "1", VStr (js "x"))];
                   VObj [(js "0", VNum 2); (js "1", VStr (js "y"))]]).
Proof. vm_compute. reflexivity. Qed.

(** An object column that carries a [length] of its own decides the row
    count too. *)
Example transformToRows_object_column coerce :
  transformToRows coerce
    (VObj [(js "a", VObj [(js "length", VNum 2); (js "1", VStr (js "z"))])])
  = Returns (VArr [VObj [(js "a", VNull)]; VObj [(js "a", VStr (js "z"))]]).
Proof. vm_compute. reflexivity. Qed.

(** ** Decimal digits *)

Lemma digits_value_snoc s c :
  digits_value (s ++ [c]) = digits_value s * 10 + (Z.of_N c - 48).
Proof. unfold digits_value. rewrite fold_left_app. reflexivity. Qed.

Lemma digits_canonical s :
  forallb is_digit s = true ->
  s = decimal_digits (List.length s) (digits_value s)
  /\ 0 <= digits_value s < 10 ^ Z.of_nat (List.length s).
Proof.
  induction s as [|c s IH] using rev_ind; intros H.
  - split; [reflexivity | cbn; lia].
  - rewrite forallb_app in H. apply andb_prop in H. destruct H as [Hs Hc].
    cbn [forallb] in Hc. rewrite andb_true_r in Hc. apply digit_bounds in Hc.
    destruct (IH Hs) as [E B].
    rewrite length_app, Nat.add_1_r, digits_value_snoc.
    set (v := digits_value s) in *. set (d := Z.of_N c - 48).
    assert (Hd : 0 <= d <= 9) by (unfold d; lia).
    assert (Hq : (v * 10 + d) / 10 = v) by (Z.div_mod_to_equations; lia).
    assert (Hr : (v * 10 + d) mod 10 = d) by (Z.div_mod_to_equations; lia).
    split.
    + cbn [decimal_digits]. rewrite Hq, Hr, <- E. f_equal. f_equal.
      unfold d. lia.
    + rewrite Nat2Z.inj_succ, Z.pow_succ_r by lia. lia.
Qed.

Lemma decimal_digits_zero k : decimal_digits k 0 = repeat 48%N k.
Proof.
  induction k as [|k IH]; [reflexivity|].
  cbn [decimal_digits]. change (0 / 10) with 0. rewrite IH.
  change (Z.to_N (48 + 0 mod 10)) with 48%N.
  symmetry. apply (repeat_cons k 48%N).
Qed.

Lemma decimal_digits_split a b : forall v,
  decimal_digits (a + b) v
  = decimal_digits a (v / 10 ^ Z.of_nat b) ++ decimal_digits b v.
Proof.
  induction b as [|b IH]; intros v.
  - rewrite Nat.add_0_r, Z.div_1_r, app_nil_r. reflexivity.
  - rewrite Nat.add_succ_r. cbn [decimal_digits]. rewrite IH, <- app_assoc.
    rewrite Z.div_div by lia.
    rewrite Nat2Z.inj_succ, Z.pow_succ_r by lia. reflexivity.
Qed.

Lemma decimal_digits_pad k n v :
  0 <= v < 10 ^ Z.of_nat n ->
  decimal_digits (k + n) v = repeat 48%N k ++ decimal_digits n v.
Proof.
  intros H. rewrite decimal_digits_split.
  rewrite Z.div_small by exact H. rewrite decimal_digits_zero. reflexivity.
Qed.

Lemma to_uint_no_leading_zero p d' : N.to_uint (Npos p) <> D0 d'.
Proof.
  intros E.
  pose proof (DecimalN.Unsigned.of_to (Npos p)) as Hof.
  pose proof (DecimalN.Unsigned.to_of (N.to_uint (Npos p))) as Hto.
  rewrite Hof, E in Hto. rewrite E in Hof.
  unfold unorm in Hto. rewrite DecimalFacts.nzhead_D0 in Hto.
  destruct (nzhead d') eqn:En;
    try (symmetry in Hto; revert Hto; rewrite <- En; apply DecimalFacts.nzhead_nonzero).
  injection Hto as Hd. subst d'. discriminate Hof.
Qed.

Lemma digits_fold_lower r : forall acc,
  0 <= acc -> forallb is_digit r = true ->
  acc * 10 ^ Z.of_nat (List.length r)
  <= fold_left (fun acc c => acc * 10 + (Z.of_N c - 48)) r acc.
Proof.
  induction r as [|c r IH]; intros acc Ha H.
  - cbn. lia.
  - cbn [forallb] in H. apply andb_prop in H. destruct H as [Hc Hr].
    apply digit_bounds in Hc. cbn [fold_left List.length].
    rewrite Nat2Z.inj_succ, Z.pow_succ_r by lia.
    specialize (IH (acc * 10 + (Z.of_N c - 48)) ltac:(lia) Hr).
    assert (0 <= 10 ^ Z.of_nat (List.length r)) by (apply Z.pow_nonneg; lia).
    nia.
Qed.

(** The decimal string of a non-negative integer: digits only, no
    leading zero, of the integer's value. *)
Lemma decimal_string_digits z :
  0 <= z ->
  forallb is_digit (decimal_string z) = true
  /\ digits_value (decimal_string z) = z
  /\ (1 <= List.length (decimal_string z))%nat
  /\ (0 < z -> 10 ^ Z.of_nat (List.length (decimal_string z) - 1) <= z).
Proof.
  intros Hz. destruct z as [|p|p]; [|clear Hz|lia].
  - repeat split; try reflexivity; cbn; lia.
  - cbn [decimal_string].
    pose proof (all_digits_uint (N.to_uint (Npos p))) as Ha.
    pose proof (digits_value_uint (N.to_uint (Npos p))) as Hv.
    rewrite DecimalN.Unsigned.of_to in Hv.
    destruct (uint_units_head p) as (c & r & E & Hc).
    assert (Hnz : c <> 48%N).
    { intros ->. destruct (N.to_uint (Npos p)) eqn:Ed; cbn [uint_units] in E;
        try discriminate E.
      exact (to_uint_no_leading_zero p _ Ed). }
    rewrite E in *. split; [exact Ha|]. split; [exact Hv|].
    split; [cbn; lia|]. intros _.
    cbn [forallb] in Ha. apply andb_prop in Ha. destruct Ha as [_ Hr].
    apply digit_bounds in Hc.
    pose proof (digits_fold_lower r (Z.of_N c - 48) ltac:(lia) Hr) as Hl.
    unfold digits_value in Hv. cbn [fold_left] in Hv.
    change (0 * 10 + (Z.of_N c - 48)) with (Z.of_N c - 48) in Hv.
    rewrite Hv in Hl. cbn [List.length].
    replace (S (List.length r) - 1)%nat with (List.length r) by lia.
    assert (0 <= 10 ^ Z.of_nat (List.length r)) by (apply Z.pow_nonneg; lia).
    change (Z.of_N (Npos p)) with (Z.pos p) in *. nia.
Qed.

Lemma decimal_string_decimal z :
  0 <= z ->
  decimal_string z
  = decimal_digits (List.length (decimal_string z)) z.
Proof.
  intros Hz. destruct (decimal_string_digits z Hz) as (Ha & Hv & _).
  destruct (digits_canonical _ Ha) as [E _]. rewrite Hv in E. exact E.
Qed.

Lemma pad_zero_decimal n z :
  (1 <= n)%nat ->
  0 <= z < 10 ^ Z.of_nat n ->
  pad_zero n (decimal_string z) = decimal_digits n z.
Proof.
  intros Hn Hz.
  destruct (decimal_string_digits z ltac:(lia)) as (Ha & Hv & Hl & Hlow).
  destruct (digits_canonical _ Ha) as [E B]. rewrite Hv in E, B.
  set (s := decimal_string z) in *.
  assert (Hlen : (List.length s <= n)%nat).
  { destruct (Z.eq_dec z 0) as [->|Hnz].
    - subst s. cbn. lia.
    - specialize (Hlow ltac:(lia)).
      assert (10 ^ Z.of_nat (List.length s - 1) < 10 ^ Z.of_nat n) by lia.
      apply Z.pow_lt_mono_r_iff in H; lia. }
  unfold pad_zero. rewrite E at 2.
  rewrite <- decimal_digits_pad by lia.
  f_equal. lia.
Qed.

(** ** academicYear: how the year is written *)

Lemma iso_year_expanded y :
  (y < 0 \/ 9999 < y) -> Z.abs y < 1000000 -> iso_year y = expanded_year y.
Proof.
  intros Hy Hb. unfold iso_year, expanded_year.
  assert (E : (0 <=? y) && (y <=? 9999) = false).
  { destruct (Z.leb_spec 0 y); destruct (Z.leb_spec y 9999); cbn; try reflexivity; lia. }
  rewrite E. rewrite pad_zero_decimal; [reflexivity | lia | cbn; lia].
Qed.

(** X1.  For a parsed year of five digits or more, or a negative one
    (at most -2), the dates carry the expanded year of ISO strings: a
    sign and six digits, so [start] and [end] are 13 characters long. *)
Theorem academicYear_expanded_years i year :
  parseInt i = Some year ->
  in_date_range year ->
  year <= -2 \/ 10000 <= year ->
  exists r,
    academicYear i = ([], Returns (Some r))
    /\ start r = expanded_year year ++ js "-09-01"
    /\ end_ r = expanded_year (year + 1) ++ js "-08-31"
    /\ List.length (start r) = 13%nat.
Proof.
  intros Hp Hr Hy. exists (info_of year). split.
  - apply academicYear_in_range; assumption.
  - unfold in_date_range in Hr. cbn [info_of start end_].
    destruct (MakeFullYear_cases year) as [[R _]|[_ ->]]; [lia|].
    destruct (MakeFullYear_cases (year + 1)) as [[R _]|[_ ->]]; [lia|].
    rewrite !iso_year_expanded by lia.
    split; [reflexivity|]. split; [reflexivity|].
    unfold expanded_year. destruct (year <? 0); reflexivity.
Qed.

(** X2.  A parsed year from 0 to 99 is dated in the twentieth century:
    [start] is 1 September of 1900 + year, and [end] 31 August of
    1901 + year (of year 100 for year 99), while the labels keep the
    year as it was given. *)
Theorem academicYear_two_digit_years i year :
  parseInt i = Some year ->
  0 <= year <= 99 ->
  exists r,
    academicYear i = ([], Returns (Some r))
    /\ start r = iso_date (1900 + year) 9 1
    /\ (year <= 98 -> end_ r = iso_date (1901 + year) 8 31)
    /\ (year = 99 -> end_ r = iso_date 100 8 31)
    /\ rangeFull r = decimal_string year ++ js "-" ++ decimal_string (year + 1).
Proof.
  intros Hp Hy. exists (info_of year). split.
  - apply academicYear_in_range; [exact Hp | unfold in_date_range; lia].
  - cbn [info_of start end_ rangeFull].
    destruct (MakeFullYear_cases year) as [[_ ->]|[R _]]; [|lia].
    rewrite iso_year_four_digits by lia.
    split; [reflexivity|]. split; [|split; [|reflexivity]].
    + intros H. destruct (MakeFullYear_cases (year + 1)) as [[_ ->]|[R _]]; [|lia].
      rewrite iso_year_four_digits by lia.
      replace (1900 + (year + 1)) with (1901 + year) by lia. reflexivity.
    + intros ->. reflexivity.
Qed.

Lemma slice_last_two_decimal z :
  10 <= z -> slice_last 2 (decimal_string z) = decimal_digits 2 (z mod 100).
Proof.
  intros Hz.
  pose proof (length_decimal_string_ge2 z ltac:(lia)) as Hl.
  unfold slice_last.
  rewrite (decimal_string_decimal z) at 2 by lia.
  set (n := List.length (decimal_string z)) in *.
  replace n with ((n - 2) + 2)%nat at 2 by lia.
  rewrite decimal_digits_split.
  assert (Hlen : forall m v, List.length (decimal_digits m v) = m).
  { induction m as [|m IH]; intros v; [reflexivity|].
    cbn [decimal_digits]. rewrite length_app, IH. cbn. lia. }
  rewrite <- (Hlen (n - 2)%nat (z / 10 ^ Z.of_nat 2)) at 1.
  rewrite skipn_app, skipn_all, Nat.sub_diag. cbn [skipn app].
  cbn [decimal_digits app].
  assert (E1 : (z mod 100 / 10) mod 10 = (z / 10) mod 10)
    by (Z.div_mod_to_equations; lia).
  assert (E2 : (z mod 100) mod 10 = z mod 10)
    by (Z.div_mod_to_equations; lia).
  rewrite E1, E2. reflexivity.
Qed.

(** X3.  From year 10 on, the two-digit forms cut from the strings are
    the years modulo 100 written on two digits, so that 2009 gives
    09-10 and 2099 gives 99-00. *)
Theorem academicYear_short_forms_modulo i year :
  parseInt i = Some year ->
  10 <= year <= 275759 ->
  exists r,
    academicYear i = ([], Returns (Some r))
    /\ rangeShort r
       = decimal_digits 2 (year mod 100) ++ js "-"
         ++ decimal_digits 2 ((year + 1) mod 100)
    /\ rangeCompact r
       = decimal_digits 2 (year mod 100) ++ decimal_digits 2 ((year + 1) mod 100).
Proof.
  intros Hp Hy. exists (info_of year). split.
  - apply academicYear_in_range; [exact Hp | unfold in_date_range; lia].
  - cbn [info_of rangeShort rangeCompact].
    rewrite !slice_last_two_decimal by lia. split; reflexivity.
Qed.

(** ** academicYear: what [parseInt] accepts *)

Lemma trim_start_white ws s :
  forallb is_white_space ws = true -> trim_start (ws ++ s) = trim_start s.
Proof.
  induction ws as [|c ws IH]; intros H; [reflexivity|].
  cbn [forallb] in H. apply andb_prop in H. destruct H as [Hc Hw].
  cbn [List.app trim_start]. rewrite Hc. apply IH. exact Hw.
Qed.

Lemma digit_prefix_app s rest :
  forallb is_digit s = true -> stops_digits rest ->
  digit_prefix (s ++ rest) = s.
Proof.
  induction s as [|c s IH]; intros H Hr.
  - destruct rest as [|c r]; [reflexivity|]. cbn in Hr |- *. rewrite Hr.
    reflexivity.
  - cbn [forallb] in H. apply andb_prop in H. destruct H as [Hc Hs].
    cbn [List.app digit_prefix]. rewrite Hc, IH by assumption. reflexivity.
Qed.

Lemma is_digit_not_white c : is_digit c = true -> is_white_space c = false.
Proof.
  intros Hc. apply digit_bounds in Hc. unfold is_white_space. cbn [existsb].
  repeat (apply orb_false_intro; [apply N.eqb_neq; lia|]). reflexivity.
Qed.

Lemma parseInt10_digit_head c t :
  is_digit c = true ->
  parseInt10 (c :: t) = Some (digits_value (c :: digit_prefix t)).
Proof.
  intros Hc. unfold parseInt10. cbn [trim_start].
  rewrite (is_digit_not_white c Hc). cbn [digit_prefix].
  pose proof (digit_bounds c Hc) as Hb.
  destruct c as [|p]; [lia|].
  do 6 (destruct p as [p|p|]; try lia;
        try (cbn [digit_prefix]; rewrite Hc; f_equal; lia)).
Qed.

Lemma parseInt10_trim ws s :
  forallb is_white_space ws = true -> parseInt10 (ws ++ s) = parseInt10 s.
Proof.
  intros Hw. unfold parseInt10. rewrite trim_start_white by exact Hw.
  reflexivity.
Qed.

Lemma decimal_string_head v rest :
  0 <= v -> stops_digits rest ->
  exists c r, decimal_string v = c :: r /\ is_digit c = true
              /\ digit_prefix (r ++ rest) = r
              /\ digits_value (c :: r) = v.
Proof.
  intros Hv0 Hr.
  destruct (decimal_string_digits v Hv0) as (Ha & Hv & Hl & _).
  destruct (decimal_string v) as [|c r]; [cbn in Hl; lia|].
  cbn [forallb] in Ha. apply andb_prop in Ha. destruct Ha as [Hc Hs].
  exists c, r. repeat split; try assumption.
  apply digit_prefix_app; assumption.
Qed.

Lemma parseInt10_prefix ws z rest :
  forallb is_white_space ws = true -> stops_digits rest ->
  parseInt10 (ws ++ decimal_string z ++ rest) = Some z.
Proof.
  intros Hw Hr. rewrite parseInt10_trim by exact Hw.
  destruct z as [|p|p].
  - destruct (decimal_string_head 0 rest ltac:(lia) Hr)
      as (c & r & E & Hc & Hp & Hv).
    rewrite E. cbn [List.app]. rewrite parseInt10_digit_head by exact Hc.
    rewrite Hp, Hv. reflexivity.
  - destruct (decimal_string_head (Z.pos p) rest ltac:(lia) Hr)
      as (c & r & E & Hc & Hp & Hv).
    rewrite E. cbn [List.app]. rewrite parseInt10_digit_head by exact Hc.
    rewrite Hp, Hv. reflexivity.
  - destruct (decimal_string_head (Z.pos p) rest ltac:(lia) Hr)
      as (c & r & E & Hc & Hp & Hv).
    change (decimal_string (Z.neg p)) with (45%N :: decimal_string (Z.pos p)).
    rewrite E. unfold parseInt10. cbn [List.app trim_start].
    change (is_white_space 45%N) with false. cbv iota.
    cbn [digit_prefix]. rewrite Hc, Hp, Hv. reflexivity.
Qed.

(** X4.  [academicYear] reads the integer a string starts with: white
    space before it, and everything from the first code unit after its
    digits that is no digit, are ignored.  Such a string gives what the
    bare integer gives and logs nothing. *)
Theorem academicYear_leading_integer ws z rest :
  forallb is_white_space ws = true -> stops_digits rest ->
  parseInt (InputString (ws ++ decimal_string z ++ rest)) = Some z
  /\ snd (academicYear (InputString (ws ++ decimal_string z ++ rest)))
     = snd (academicYear (InputString (decimal_string z)))
  /\ fst (academicYear (InputString (ws ++ decimal_string z ++ rest))) = [].
Proof.
  intros Hw Hr.
  assert (H1 : parseInt (InputString (ws ++ decimal_string z ++ rest)) = Some z)
    by (apply parseInt10_prefix; assumption).
  assert (H2 : parseInt (InputString (decimal_string z)) = Some z)
    by apply parseInt10_decimal_string.
  split; [exact H1|].
  unfold academicYear. rewrite H1, H2. split; reflexivity.
Qed.

(** ** academicYear: a Number and its decimal string *)

Lemma round_double_small z : Z.abs z <= 2 ^ 53 -> round_double z = z.
Proof.
  intros H. unfold round_double.
  destruct (Z.leb_spec (Z.abs z) (2 ^ 53)); [reflexivity | lia].
Qed.

(** Above 2^53 the rounded value is [m' * 2^e] with the significand
    [m'] at least 2^52 and at least [a / 2^e]. *)
Lemma round_double_large z :
  2 ^ 53 < Z.abs z ->
  exists e m',
    1 <= e /\ Z.log2 (Z.abs z) = e + 52 /\ Z.abs z / 2 ^ e <= m'
    /\ 2 ^ 52 <= Z.abs z / 2 ^ e
    /\ round_double z = Z.sgn z * (m' * 2 ^ e).
Proof.
  intros H. unfold round_double.
  destruct (Z.leb_spec (Z.abs z) (2 ^ 53)); [lia|].
  set (a := Z.abs z) in *.
  assert (Hl : 53 <= Z.log2 a).
  { apply Z.log2_le_pow2; lia. }
  set (e := Z.log2 a - 52).
  exists e. eexists. split; [unfold e; lia|]. split; [unfold e; lia|].
  split; [|split; [|reflexivity]].
  - destruct (_ || _); lia.
  - pose proof (Z.log2_spec a ltac:(lia)) as [Hlo _].
    replace (Z.log2 a) with (52 + e) in Hlo by (unfold e; lia).
    rewrite Z.pow_add_r in Hlo by (unfold e; lia).
    apply Z.div_le_lower_bound; [apply Z.pow_pos_nonneg; unfold e; lia|].
    lia.
Qed.

Lemma round_double_ge_53 z :
  2 ^ 53 <= Z.abs z -> 2 ^ 53 <= Z.abs (round_double z).
Proof.
  intros H. destruct (Z.eq_dec (Z.abs z) (2 ^ 53)) as [E|E].
  - rewrite round_double_small by lia. lia.
  - destruct (round_double_large z ltac:(lia)) as (e & m' & He & _ & Hm & H52 & ->).
    assert (Hp : 2 <= 2 ^ e).
    { change 2 with (2 ^ 1) at 1. apply Z.pow_le_mono_r; lia. }
    rewrite Z.abs_mul.
    assert (Z.abs (Z.sgn z) = 1) by lia.
    assert (0 <= m' * 2 ^ e) by nia.
    rewrite H0, Z.abs_eq by assumption. change (2 ^ 53) with (2 ^ 52 * 2). nia.
Qed.

Lemma round_double_ge_1e21 z :
  10 ^ 21 <= Z.abs z -> 10 ^ 21 <= Z.abs (round_double z).
Proof.
  intros H.
  destruct (round_double_large z ltac:(lia)) as (e & m' & He & Hl & Hm & H52 & ->).
  rewrite Z.abs_mul.
  assert (Z.abs (Z.sgn z) = 1) by lia.
  assert (Hpos : 0 < 2 ^ e) by (apply Z.pow_pos_nonneg; lia).
  assert (0 <= m' * 2 ^ e) by nia.
  rewrite H0, Z.abs_eq by assumption.
  assert (H69 : 69 <= Z.log2 (Z.abs z)) by (apply Z.log2_le_pow2; lia).
  destruct (Z.eq_dec e 17) as [->|Ne].
  - assert (10 ^ 21 / 2 ^ 17 <= Z.abs z / 2 ^ 17)
      by (apply Z.div_le_mono; lia).
    change (10 ^ 21 / 2 ^ 17) with 7629394531250000 in H2.
    change (10 ^ 21) with (7629394531250000 * 2 ^ 17). nia.
  - assert (2 ^ 18 <= 2 ^ e) by (apply Z.pow_le_mono_r; lia).
    assert (10 ^ 21 <= 2 ^ 52 * 2 ^ 18) by (vm_compute; discriminate).
    nia.
Qed.

Lemma round_double_sign z : 0 <= z -> 0 <= round_double z.
Proof.
  intros H. destruct (Z_le_gt_dec (Z.abs z) (2 ^ 53)) as [L|G].
  - rewrite round_double_small by exact L. exact H.
  - destruct (round_double_large z ltac:(lia))
      as (e & m' & He & _ & Hm & H52 & ->).
    assert (0 < 2 ^ e) by (apply Z.pow_pos_nonneg; lia). nia.
Qed.

Lemma candidate_sound d p v :
  candidate d p = Some v -> round_double v = d.
Proof.
  unfold candidate. intros H.
  destruct (Z.eqb_spec (round_double (d / 10 ^ p * 10 ^ p)) d) as [Elo|Nlo];
    destruct (Z.eqb_spec (round_double (d / 10 ^ p * 10 ^ p + 10 ^ p)) d)
      as [Ehi|Nhi]; cbn [andb] in H; try discriminate H;
    repeat match type of H with
           | context [if ?c then _ else _] => destruct c
           end; injection H as <-; assumption.
Qed.

Lemma candidate_lower d p v :
  0 <= p -> candidate d p = Some v -> d / 10 ^ p * 10 ^ p <= v.
Proof.
  unfold candidate. intros Hp H.
  assert (Hpow : 0 < 10 ^ p) by (apply Z.pow_pos_nonneg; lia).
  repeat match type of H with
         | context [if ?c then _ else _] => destruct c
         end; try discriminate H; injection H as <-; lia.
Qed.

Lemma shortest_from_sound d p :
  shortest_from d p = d \/ round_double (shortest_from d p) = d.
Proof.
  induction p as [|p IH]; cbn [shortest_from];
    destruct (candidate d _) as [v|] eqn:E;
    try (right; apply (candidate_sound _ _ _ E)); [left; reflexivity | exact IH].
Qed.

Lemma candidate_nonneg d p v :
  0 <= d -> 0 <= p -> candidate d p = Some v -> 0 <= v.
Proof.
  intros Hd Hp H. pose proof (candidate_lower d p v Hp H) as Hl.
  assert (Hpow : 0 < 10 ^ p) by (apply Z.pow_pos_nonneg; lia).
  assert (Hq : 0 <= d / 10 ^ p) by (apply Z.div_pos; lia).
  nia.
Qed.

Lemma shortest_from_nonneg d p : 0 <= d -> 0 <= shortest_from d p.
Proof.
  intros Hd. induction p as [|p IH]; cbn [shortest_from];
    destruct (candidate d _) as [v|] eqn:E;
    try (apply (candidate_nonneg d _ v Hd (Nat2Z.is_nonneg _) E));
    [exact Hd | exact IH].
Qed.

(** The digits printed for a double from 2^53 to 10^21 are those of an
    integer of that range. *)
Lemma shortest_decimal_bounds d :
  2 ^ 53 <= d ->
  2 ^ 53 <= shortest_decimal d
  /\ (d < 10 ^ 21 -> shortest_decimal d < 10 ^ 21).
Proof.
  intros Hd. pose proof (shortest_from_nonneg d
                           (List.length (decimal_string d) - 1) ltac:(lia)) as H0.
  unfold shortest_decimal.
  destruct (shortest_from_sound d (List.length (decimal_string d) - 1))
    as [-> | E]; [lia|].
  set (v := shortest_from d _) in *. split.
  - destruct (Z_lt_le_dec v (2 ^ 53)) as [L|G]; [|exact G].
    rewrite round_double_small in E by lia. lia.
  - intros H21. destruct (Z_lt_le_dec v (10 ^ 21)) as [L|G]; [exact L|].
    pose proof (round_double_ge_1e21 v ltac:(lia)). lia.
Qed.

(** The digits printed for a double of 10^21 or more are those of an
    integer of 10^21 or more. *)
Lemma shortest_decimal_large d : 10 ^ 21 <= d -> 10 ^ 21 <= shortest_decimal d.
Proof.
  intros Hd. unfold shortest_decimal.
  generalize (List.length (decimal_string d) - 1)%nat as p.
  induction p as [|p IH]; cbn [shortest_from];
    destruct (candidate d _) as [v|] eqn:E; try assumption.
  - pose proof (candidate_lower d _ v (Nat2Z.is_nonneg 0) E) as Hl.
    change (10 ^ Z.of_nat 0) with 1 in Hl. rewrite Z.div_1_r in Hl. lia.
  - pose proof (candidate_lower d _ v (Nat2Z.is_nonneg _) E) as Hl.
    pose proof (candidate_sound d _ v E) as Hs.
    set (q := Z.of_nat (S p)) in *.
    assert (Hq : 0 <= q) by (unfold q; lia).
    clearbody q.
    assert (Hpow : 0 < 10 ^ q) by (apply Z.pow_pos_nonneg; lia).
    destruct (Z_le_gt_dec q 21) as [Hle|Hgt].
    + assert (Hsplit : 10 ^ 21 = 10 ^ (21 - q) * 10 ^ q)
        by (rewrite <- Z.pow_add_r by lia; f_equal; lia).
      assert (10 ^ (21 - q) <= d / 10 ^ q).
      { apply Z.div_le_lower_bound; [exact Hpow|]. lia. }
      nia.
    + assert (H21 : 10 ^ 21 < 10 ^ q) by (apply Z.pow_lt_mono_r; lia).
      assert (Hd0 : 0 <= d / 10 ^ q) by (apply Z.div_pos; lia).
      destruct (Z.eq_dec (d / 10 ^ q) 0) as [E0|N0]; [|nia].
      rewrite E0 in Hl.
      unfold candidate in E. rewrite E0 in E.
      change (0 * 10 ^ q) with 0 in E. rewrite Z.add_0_l in E.
      change (round_double 0) with 0 in E.
      destruct (Z.eqb_spec 0 d); [lia|]. cbn [andb] in E.
      destruct (round_double (10 ^ q) =? d); [|discriminate E].
      injection E as <-. lia.
Qed.

Lemma decimal_string_neg v :
  0 < v -> decimal_string (- v) = js "-" ++ decimal_string v.
Proof. intros H. destruct v as [|p|p]; try lia. reflexivity. Qed.

Lemma length_decimal_string_bounds v k :
  0 < v ->
  (v < 10 ^ Z.of_nat k -> (List.length (decimal_string v) <= k)%nat)
  /\ (10 ^ Z.of_nat k <= v -> (k < List.length (decimal_string v))%nat).
Proof.
  intros Hv.
  destruct (decimal_string_digits v ltac:(lia)) as (Ha & Hd & Hl & Hlow).
  destruct (digits_canonical _ Ha) as [_ B]. rewrite Hd in B.
  specialize (Hlow Hv). split; intros H.
  - assert (Hlt : 10 ^ Z.of_nat (List.length (decimal_string v) - 1)
                  < 10 ^ Z.of_nat k) by lia.
    apply Z.pow_lt_mono_r_iff in Hlt; lia.
  - assert (Hlt : 10 ^ Z.of_nat k
                  < 10 ^ Z.of_nat (List.length (decimal_string v))) by lia.
    apply Z.pow_lt_mono_r_iff in Hlt; lia.
Qed.

(** A double from 2^53 to 10^21 is printed as an integer of that
    range. *)
Lemma Number_toString_digits d :
  2 ^ 53 <= Z.abs d < 10 ^ 21 ->
  exists y, Number_toString d = decimal_string y /\ 2 ^ 53 <= Z.abs y.
Proof.
  intros [Hlo Hhi]. unfold Number_toString. cbv zeta.
  destruct (Z.leb_spec (Z.abs d) (2 ^ 53 - 1)); [lia|].
  destruct (shortest_decimal_bounds (Z.abs d) Hlo) as [Hv Hv21].
  specialize (Hv21 Hhi). set (v := shortest_decimal (Z.abs d)) in *.
  assert (Hn : (List.length (decimal_string v) <= 21)%nat)
    by (apply (length_decimal_string_bounds v 21); [lia | exact Hv21]).
  apply Nat.leb_le in Hn. rewrite Hn.
  destruct (Z.ltb_spec d 0).
  - exists (- v). rewrite decimal_string_neg by lia. split; [reflexivity | lia].
  - exists v. split; [reflexivity | lia].
Qed.

Lemma strip_leading_zeros_nonzero (c : code_unit) (l : jsstring) :
  c <> 48%N -> strip_leading_zeros (c :: l) = c :: l.
Proof.
  intros H. cbn [strip_leading_zeros]. destruct c as [|p]; [reflexivity|].
  do 6 (destruct p as [p|p|]; try reflexivity). congruence.
Qed.

Lemma strip_leading_zeros_last (l : jsstring) (c : code_unit) :
  c <> 48%N ->
  exists l' : jsstring, strip_leading_zeros (l ++ [c]) = l' ++ [c].
Proof.
  intros H. induction l as [|x l IH].
  - exists []. apply strip_leading_zeros_nonzero. exact H.
  - destruct (N.eq_dec x 48) as [->|Hx].
    + destruct IH as [l' E]. exists l'. exact E.
    + exists (x :: l). apply (strip_leading_zeros_nonzero x (l ++ [c]) Hx).
Qed.

Lemma strip_trailing_zeros_head (c : code_unit) (r : jsstring) :
  c <> 48%N -> exists r' : jsstring, strip_trailing_zeros (c :: r) = c :: r'.
Proof.
  intros H. unfold strip_trailing_zeros.
  change (List.rev (c :: r)) with (List.rev r ++ [c]).
  destruct (strip_leading_zeros_last (List.rev r) c H) as [l' E].
  rewrite E, rev_app_distr. exists (List.rev l'). reflexivity.
Qed.

Lemma decimal_string_nonzero_head v :
  0 < v ->
  exists c r, decimal_string v = c :: r /\ is_digit c = true /\ c <> 48%N.
Proof.
  intros Hv. destruct v as [|p|p]; try lia. cbn [decimal_string].
  destruct (uint_units_head p) as (c & r & E & Hc).
  exists c, r. split; [exact E|]. split; [exact Hc|].
  intros ->. destruct (N.to_uint (Npos p)) eqn:Ed; cbn [uint_units] in E;
    try discriminate E.
  exact (to_uint_no_leading_zero p _ Ed).
Qed.

Lemma digit_decimal_string c :
  is_digit c = true -> c <> 48%N ->
  [c] = decimal_string (Z.of_N c - 48) /\ 1 <= Z.of_N c - 48 <= 9.
Proof.
  intros Hc Hn. apply digit_bounds in Hc.
  assert (H : (c = 49 \/ c = 50 \/ c = 51 \/ c = 52 \/ c = 53 \/ c = 54
               \/ c = 55 \/ c = 56 \/ c = 57)%N) by lia.
  repeat (destruct H as [->|H]; [split; [reflexivity | lia]|]).
  subst c. split; [reflexivity | lia].
Qed.

(** A double of 10^21 or more is printed in exponent notation: it
    starts with one digit that no digit follows. *)
Lemma Number_toString_exponent d :
  10 ^ 21 <= Z.abs d ->
  exists y rest,
    Number_toString d = decimal_string y ++ rest
    /\ stops_digits rest /\ -9 <= y <= 9.
Proof.
  intros Hd. unfold Number_toString. cbv zeta.
  destruct (Z.leb_spec (Z.abs d) (2 ^ 53 - 1)); [lia|].
  pose proof (shortest_decimal_large (Z.abs d) Hd) as Hv.
  set (v := shortest_decimal (Z.abs d)) in *.
  assert (Hn : (21 < List.length (decimal_string v))%nat)
    by (apply (length_decimal_string_bounds v 21); [lia | exact Hv]).
  destruct (Nat.leb_spec (List.length (decimal_string v)) 21); [lia|].
  destruct (decimal_string_nonzero_head v ltac:(lia)) as (c & r & E & Hc & Hnz).
  rewrite E. destruct (strip_trailing_zeros_head c r Hnz) as [r' Er].
  rewrite Er. destruct (digit_decimal_string c Hc Hnz) as [Ec Hb].
  set (exponent := js "e+" ++ decimal_string (Z.of_nat (List.length (c :: r) - 1))).
  assert (Hrest : exists rest,
             match r' with
             | [] => [c] ++ exponent
             | _ :: _ => [c] ++ js "." ++ r' ++ exponent
             end = [c] ++ rest /\ stops_digits rest).
  { destruct r' as [|x r'].
    - exists exponent. split; reflexivity.
    - exists (js "." ++ (x :: r') ++ exponent). split; reflexivity. }
  destruct Hrest as (rest & -> & Hs).
  destruct (Z.ltb_spec d 0).
  - exists (- (Z.of_N c - 48)), rest.
    rewrite decimal_string_neg, <- Ec by lia.
    split; [reflexivity|]. split; [exact Hs | lia].
  - exists (Z.of_N c - 48), rest. rewrite <- Ec.
    split; [reflexivity|]. split; [exact Hs | lia].
Qed.

(** Claim C8, amended.  [academicYear] of an integer Number and
    [academicYear] of the decimal string of that integer are the same
    exactly when the Number is below 10^21 in magnitude: from 10^21 on
    the Number is read through its exponent notation, or as [Infinity],
    and the two differ. *)
Theorem academicYear_number_and_string z :
  academicYear (InputNumber z) = academicYear (InputString (decimal_string z))
  <-> Z.abs (round_double z) < 10 ^ 21.
Proof.
  assert (Hs : parseInt (InputString (decimal_string z)) = Some z)
    by apply parseInt10_decimal_string.
  assert (Hinf : 10 ^ 21 < 2 ^ 1024) by (vm_compute; reflexivity).
  split.
  - intros H.
    destruct (Z_lt_le_dec (Z.abs (round_double z)) (10 ^ 21)) as [L|G];
      [exact L | exfalso].
    assert (Hz : 2 ^ 53 < Z.abs z).
    { destruct (Z_le_gt_dec (Z.abs z) (2 ^ 53)) as [Hle|Hgt]; [|lia].
      rewrite round_double_small in G by exact Hle. lia. }
    rewrite (academicYear_out_of_range (InputString (decimal_string z)) z Hs)
      in H by (unfold in_date_range; lia).
    destruct (Z_lt_le_dec (Z.abs (round_double z)) (2 ^ 1024)) as [Lf|Gf].
    + destruct (Number_toString_exponent (round_double z) G)
        as (y & rest & E & Hr & Hy).
      assert (Hn : parseInt (InputNumber z) = Some y).
      { unfold parseInt, ToString. cbv zeta.
        destruct (Z.leb_spec (2 ^ 1024) (Z.abs (round_double z))); [lia|].
        rewrite E. apply (parseInt10_prefix [] y rest eq_refl Hr). }
      rewrite (academicYear_in_range (InputNumber z) y Hn) in H
        by (unfold in_date_range; lia).
      discriminate H.
    + assert (Hn : parseInt (InputNumber z) = None).
      { unfold parseInt, ToString. cbv zeta.
        destruct (Z.leb_spec (2 ^ 1024) (Z.abs (round_double z))); [|lia].
        destruct (round_double z <? 0); reflexivity. }
      rewrite (academicYear_unparsed (InputNumber z) Hn) in H.
      discriminate H.
  - intros H.
    destruct (Z_le_gt_dec (Z.abs z) (2 ^ 53 - 1)) as [Hsafe|Hbig].
    + unfold academicYear. rewrite (parseInt_safe z Hsafe), Hs. reflexivity.
    + pose proof (round_double_ge_53 z ltac:(lia)) as H53.
      destruct (Number_toString_digits (round_double z) (conj H53 H))
        as (y & E & Hy).
      assert (Hn : parseInt (InputNumber z) = Some y).
      { unfold parseInt, ToString. cbv zeta.
        destruct (Z.leb_spec (2 ^ 1024) (Z.abs (round_double z))); [lia|].
        rewrite E. apply parseInt10_decimal_string. }
      rewrite (academicYear_out_of_range (InputNumber z) y Hn)
        by (unfold in_date_range; lia).
      rewrite (academicYear_out_of_range (InputString (decimal_string z)) z Hs)
        by (unfold in_date_range; lia).
      reflexivity.
Qed.

Lemma academicYear_number_and_string_witness :
  decimal_string 2025 = js "2025"
  /\ academicYear (InputNumber 2025) = academicYear (InputString (js "2025")).
Proof.
  split; [reflexivity|].
  apply (proj2 (academicYear_number_and_string 2025)). vm_compute. reflexivity.
Defined.

(** Claim C8 as stated fails from 10^21 on.  The Number 10^21 is written
    [1e+21], which [parseInt] reads as the year 1, and [academicYear]
    returns the year 1901-1902; its decimal string of 22 digits is read
    as a year beyond the range of dates, and [toISOString] raises. *)
Lemma academicYear_1e21 :
  ToString (InputNumber (10 ^ 21)) = js "1e+21"
  /\ parseInt (InputNumber (10 ^ 21)) = Some 1
  /\ (exists r, academicYear (InputNumber (10 ^ 21)) = ([], Returns (Some r))
                /\ start r = js "1901-09-01" /\ rangeFull r = js "1-2")
  /\ decimal_string (10 ^ 21) = js "1000000000000000000000"
  /\ academicYear (InputString (decimal_string (10 ^ 21)))
     = ([], Throws RangeError).
Proof.
  split; [vm_compute; reflexivity|]. split; [vm_compute; reflexivity|].
  split; [eexists; vm_compute; repeat split|].
  split; vm_compute; reflexivity.
Qed.

(** ** currentAcademicYear and the dates of academicYear *)

Lemma leap_bit y : 0 <= (if InLeapYear_of y then 1 else 0) <= 1.
Proof. destruct (InLeapYear_of y); lia. Qed.

Lemma september_first_value a :
  september_first a
  = (DayFromYear a + 243 + (if InLeapYear_of a then 1 else 0)) * msPerDay.
Proof.
  unfold september_first. rewrite MakeDay_month by lia.
  cbn [month_start]. f_equal. lia.
Qed.

Lemma september_first_mono a b :
  a < b -> september_first a + 122 * msPerDay <= september_first b.
Proof.
  intros H. rewrite !september_first_value.
  pose proof (DayFromYear_mono (a + 1) b ltac:(lia)) as Hm.
  rewrite DayFromYear_step in Hm. unfold DaysInYear in Hm.
  pose proof (leap_bit a). pose proof (leap_bit b).
  unfold msPerDay. destruct (InLeapYear_of a); lia.
Qed.

Lemma month_before_september t :
  (MonthFromTime t <? 8) = (DayWithinYear t <? 243 + InLeapYear t).
Proof.
  unfold MonthFromTime.
  assert (H : 0 <= InLeapYear t <= 1)
    by (unfold InLeapYear; destruct (InLeapYear_of _); lia).
  set (d := DayWithinYear t) in *. set (l := InLeapYear t) in *.
  destruct (Z.ltb_spec d (243 + l));
    repeat match goal with
           | |- context [if ?a <? ?b then _ else _] =>
               destruct (Z.ltb_spec a b)
           end; try reflexivity; lia.
Qed.

Lemma time_in_day t : Day t * msPerDay <= t < (Day t + 1) * msPerDay.
Proof. unfold Day, msPerDay. Z.div_mod_to_equations. lia. Qed.

Lemma currentAcademicYear_interval now :
  september_first (currentAcademicYear now) <= now
  /\ now < september_first (currentAcademicYear now + 1).
Proof.
  unfold currentAcademicYear. rewrite month_before_september.
  pose proof (time_in_day now) as Ht.
  pose proof (YearFromDay_spec (Day now)) as Hy.
  fold (YearFromTime now) in Hy.
  unfold DayWithinYear, InLeapYear.
  set (y := YearFromTime now) in *. set (d := Day now) in *.
  pose proof (DayFromYear_step y) as Hs. unfold DaysInYear in Hs.
  pose proof (DayFromYear_step (y - 1)) as Hp. unfold DaysInYear in Hp.
  replace (y - 1 + 1) with y in * by lia.
  rewrite !september_first_value.
  pose proof (leap_bit y). pose proof (leap_bit (y - 1)).
  pose proof (leap_bit (y + 1)).
  unfold msPerDay in *.
  destruct (Z.ltb_spec (d - DayFromYear y)
              (243 + (if InLeapYear_of y then 1 else 0))).
  - replace (y - 1 + 1) with y by lia.
    destruct (InLeapYear_of (y - 1)); nia.
  - destruct (InLeapYear_of y); nia.
Qed.

Lemma currentAcademicYear_unique now a :
  september_first a <= now < september_first (a + 1) ->
  currentAcademicYear now = a.
Proof.
  intros H. destruct (currentAcademicYear_interval now) as [L U].
  unfold msPerDay in *.
  destruct (Z.lt_trichotomy (currentAcademicYear now) a) as [C|[C|C]];
    [|exact C|].
  - pose proof (september_first_mono (currentAcademicYear now) a C).
    destruct (Z.eq_dec (currentAcademicYear now + 1) a) as [E|E].
    + rewrite E in U. lia.
    + pose proof (september_first_mono (currentAcademicYear now + 1) a ltac:(lia)).
      unfold msPerDay in *. lia.
  - destruct (Z.eq_dec (a + 1) (currentAcademicYear now)) as [E|E].
    + rewrite E in H. lia.
    + pose proof (september_first_mono (a + 1) (currentAcademicYear now) ltac:(lia)).
      unfold msPerDay in *. lia.
Qed.

(** X5.  The academic year of an instant is the year whose 1 September
    is the last one at or before the instant: it changes at midnight
    UTC of each 1 September and nowhere else. *)
Theorem currentAcademicYear_characterised now a :
  currentAcademicYear now = a
  <-> september_first a <= now < september_first (a + 1).
Proof.
  split.
  - intros <-. apply currentAcademicYear_interval.
  - apply currentAcademicYear_unique.
Qed.

(** X6.  A later instant never has an earlier academic year. *)
Theorem currentAcademicYear_monotone now1 now2 :
  now1 <= now2 -> currentAcademicYear now1 <= currentAcademicYear now2.
Proof.
  intros H.
  destruct (currentAcademicYear_interval now1) as [L1 U1].
  destruct (currentAcademicYear_interval now2) as [L2 U2].
  destruct (Z_le_gt_dec (currentAcademicYear now1) (currentAcademicYear now2))
    as [C|C]; [exact C|].
  destruct (Z.eq_dec (currentAcademicYear now2 + 1) (currentAcademicYear now1))
    as [E|E].
  - rewrite E in U2. lia.
  - pose proof (september_first_mono (currentAcademicYear now2 + 1)
                  (currentAcademicYear now1) ltac:(lia)).
    unfold msPerDay in *. lia.
Qed.

Lemma UTC_september_first a :
  (a < 0 \/ 99 < a) -> -271821 <= a <= 275760 ->
  Date.new (UTC a 8 1) = Some (september_first a).
Proof.
  intros Ha Hr. rewrite UTC_value.
  pose proof (start_day_bounds a Hr) as Hb.
  destruct (MakeFullYear_cases a) as [[R _]|[_ E]]; [lia|]. rewrite E in *.
  rewrite (TimeClip_Some _ Hb). cbn [Date.new]. apply TimeClip_Some. exact Hb.
Qed.

Lemma UTC_august_last a :
  (a < 0 \/ 99 < a) -> -271820 <= a <= 275760 ->
  Date.new (UTC a 7 31) = Some (september_first a - msPerDay).
Proof.
  intros Ha Hr. rewrite UTC_value.
  pose proof (end_day_bounds a Hr) as Hb.
  destruct (MakeFullYear_cases a) as [[R _]|[_ E]]; [lia|]. rewrite E in *.
  rewrite (TimeClip_Some _ Hb). cbn [Date.new]. rewrite (TimeClip_Some _ Hb).
  f_equal. rewrite september_first_value, MakeDay_month by lia.
  cbn [month_start]. lia.
Qed.

Lemma info_of_dates year :
  100 <= year <= 9998 ->
  start (info_of year) = iso_date year 9 1
  /\ end_ (info_of year) = iso_date (year + 1) 8 31.
Proof.
  intros Hy. cbn [info_of start end_].
  destruct (MakeFullYear_cases year) as [[R _]|[_ ->]]; [lia|].
  destruct (MakeFullYear_cases (year + 1)) as [[R _]|[_ ->]]; [lia|].
  rewrite !iso_year_four_digits by lia. split; reflexivity.
Qed.

(** X7.  [academicYear] applied to [currentAcademicYear()] returns an
    object, and the two dates it is computed from enclose the current
    instant: the start date is not after it, and it is before the end
    of the end date.  (From year 100 on, where [Date.UTC] takes the
    year as given.) *)
Theorem academicYear_of_current_year now :
  100 <= currentAcademicYear now <= 275759 ->
  exists r s e,
    academicYear (InputNumber (currentAcademicYear now))
    = ([], Returns (Some r))
    /\ Date.new (UTC (currentAcademicYear now) 8 1) = Some s
    /\ Date.new (UTC (currentAcademicYear now + 1) 7 31) = Some e
    /\ s <= now < e + msPerDay
    /\ (currentAcademicYear now <= 9998 ->
        start r = iso_date (currentAcademicYear now) 9 1
        /\ end_ r = iso_date (currentAcademicYear now + 1) 8 31).
Proof.
  intros Hr. destruct (currentAcademicYear_interval now) as [L U].
  set (a := currentAcademicYear now) in *.
  exists (info_of a), (september_first a), (september_first (a + 1) - msPerDay).
  split; [|split; [|split; [|split]]].
  - apply academicYear_in_range;
      [apply parseInt_safe; unfold is_safe_integer; lia|].
    unfold in_date_range. lia.
  - apply UTC_september_first; lia.
  - apply UTC_august_last; lia.
  - lia.
  - intros H. apply info_of_dates. lia.
Qed.

Lemma academicYear_dates i year :
  parseInt i = Some year -> in_date_range year ->
  exists r ss se,
    academicYear i = ([], Returns (Some r))
    /\ Date.new (UTC year 8 1)
       = Some (MakeDay (MakeFullYear year) 8 1 * msPerDay)
    /\ toISOString (Some (MakeDay (MakeFullYear year) 8 1 * msPerDay))
       = Returns ss
    /\ start r = split_first 84%N ss
    /\ Date.new (UTC (year + 1) 7 31)
       = Some (MakeDay (MakeFullYear (year + 1)) 7 31 * msPerDay)
    /\ toISOString (Some (MakeDay (MakeFullYear (year + 1)) 7 31 * msPerDay))
       = Returns se
    /\ end_ r = split_first 84%N se.
Proof.
  intros Hp Hr. pose proof Hr as [Hlo Hhi].
  destruct (toISOString_civil (MakeFullYear year) 8 1) as (ss & Es & Hs);
    [lia | cbn [DaysInMonth]; lia |].
  destruct (toISOString_civil (MakeFullYear (year + 1)) 7 31)
    as (se & Ee & He); [lia | cbn [DaysInMonth]; lia |].
  exists (info_of year), ss, se.
  split; [apply academicYear_in_range; assumption|].
  split.
  { rewrite UTC_value.
    rewrite (TimeClip_Some _ (start_day_bounds year ltac:(lia))).
    cbn [Date.new]. apply TimeClip_Some, start_day_bounds. lia. }
  split; [exact Es|]. split; [rewrite Hs; reflexivity|].
  split.
  { rewrite UTC_value.
    rewrite (TimeClip_Some _ (end_day_bounds (year + 1) ltac:(lia))).
    cbn [Date.new]. apply TimeClip_Some, end_day_bounds. lia. }
  split; [exact Ee|]. rewrite He. reflexivity.
Qed.

(** X8.  The [end] that [academicYear] returns for a year is the date
    of its [endDate], the [start] it returns for the next year is the
    date of that year's [startDate], and the second instant is one day
    after the first: consecutive academic years leave no gap and do not
    overlap. *)
Theorem academicYear_dates_consecutive year :
  in_date_range year -> in_date_range (year + 1) ->
  exists r r' e se ss,
    academicYear (InputNumber year) = ([], Returns (Some r))
    /\ academicYear (InputNumber (year + 1)) = ([], Returns (Some r'))
    /\ Date.new (UTC (year + 1) 7 31) = Some e
    /\ toISOString (Some e) = Returns se
    /\ end_ r = split_first 84%N se
    /\ Date.new (UTC (year + 1) 8 1) = Some (e + msPerDay)
    /\ toISOString (Some (e + msPerDay)) = Returns ss
    /\ start r' = split_first 84%N ss.
Proof.
  intros Hr Hr'. pose proof Hr as [Hlo Hhi].
  destruct (academicYear_dates (InputNumber year) year)
    as (r & _ & se & Er & _ & _ & _ & Ue & Ee & He);
    [apply parseInt_safe, in_date_range_safe; lia | exact Hr |].
  destruct (academicYear_dates (InputNumber (year + 1)) (year + 1))
    as (r' & ss & _ & Er' & Us & Es & Hs & _ & _ & _);
    [apply parseInt_safe, in_date_range_safe; lia | exact Hr' |].
  assert (E : MakeDay (MakeFullYear (year + 1)) 8 1 * msPerDay
              = MakeDay (MakeFullYear (year + 1)) 7 31 * msPerDay + msPerDay)
    by (rewrite !MakeDay_month by lia; cbn [month_start]; lia).
  rewrite E in Us, Es.
  exists r, r', (MakeDay (MakeFullYear (year + 1)) 7 31 * msPerDay), se, ss.
  repeat (split; [assumption|]). assumption.
Qed.

(** X9.  The [start] and the [end] that [academicYear] returns are the
    dates of its [startDate] and [endDate], two instants 364 days apart,
    365 when the academic year ends in a leap year (years -1 and 99
    apart, whose two dates [Date.UTC] places in different centuries). *)
Theorem academicYear_dates_span year :
  in_date_range year -> year <> -1 -> year <> 99 ->
  exists r s e ss se,
    academicYear (InputNumber year) = ([], Returns (Some r))
    /\ Date.new (UTC year 8 1) = Some s
    /\ toISOString (Some s) = Returns ss
    /\ start r = split_first 84%N ss
    /\ Date.new (UTC (year + 1) 7 31) = Some e
    /\ toISOString (Some e) = Returns se
    /\ end_ r = split_first 84%N se
    /\ e - s
       = (364 + (if InLeapYear_of (MakeFullYear (year + 1)) then 1 else 0))
         * msPerDay.
Proof.
  intros Hr H1 H99. pose proof Hr as [Hlo Hhi].
  destruct (academicYear_dates (InputNumber year) year)
    as (r & ss & se & Er & Us & Es & Hs & Ue & Ee & He);
    [apply parseInt_safe, in_date_range_safe; lia | exact Hr |].
  exists r, (MakeDay (MakeFullYear year) 8 1 * msPerDay),
         (MakeDay (MakeFullYear (year + 1)) 7 31 * msPerDay), ss, se.
  do 7 (split; [assumption|]).
  assert (E : MakeFullYear (year + 1) = MakeFullYear year + 1).
  { destruct (MakeFullYear_cases year) as [[R ->]|[R ->]];
      destruct (MakeFullYear_cases (year + 1)) as [[R' ->]|[R' ->]]; lia. }
  rewrite E, !MakeDay_month by lia. cbn [month_start].
  rewrite DayFromYear_step. unfold DaysInYear, msPerDay.
  destruct (InLeapYear_of (MakeFullYear year)); lia.
Qed.

(** ** transformToRows on any object *)

Lemma fill_row_object d keys i :
  is_object d -> fill_row d keys i = Returns (VObj (fill_props d keys i)).
Proof.
  intros Hd. unfold fill_row, fill_props.
  assert (G : forall acc,
    fold_left
      (fun acc key =>
         row <- acc ;;
         column <- Get d key ;;
         cell <- Get_optional column (index_key i) ;;
         Returns (set_prop row key (nullish cell VNull)))
      keys (Returns acc)
    = Returns (fold_left
                 (fun row key => set_prop row key (cell_of (own_property d key) i))
                 keys acc)).
  { induction keys as [|k keys IH]; intros acc; [reflexivity|].
    cbn [fold_left]. rewrite <- IH. f_equal. cbn [bind].
    assert (Hg : Get d k = Returns (own_property d k))
      by (destruct d; try contradiction; reflexivity).
    rewrite Hg. cbn [bind].
    pose proof (Get_optional_cell (own_property d k) i) as Hc.
    destruct (Get_optional (own_property d k) (index_key i)) as [cell|e];
      [|discriminate Hc].
    cbn [bind] in Hc |- *. injection Hc as Hc. rewrite Hc. reflexivity. }
  rewrite G. reflexivity.
Qed.

Lemma Get_optional_returns c k : exists v, Get_optional c k = Returns v.
Proof. destruct c; eexists; reflexivity. Qed.

Lemma guard_object coerce d :
  is_object d ->
  transformToRows coerce d
  = (len <- Get_optional (own_property d (first_key (Object_keys d))) (js "length") ;;
     Array_from_length coerce (or_else len (VNum 0))
       (fun i => Returns (VObj (fill_props d (Object_keys d) i)))).
Proof.
  intros Hd. unfold transformToRows.
  assert (Hg : negb (truthy d) || negb (jsstring_eqb (typeof d) (js "object")) = false)
    by (destruct d; try contradiction; reflexivity).
  rewrite Hg.
  assert (HG : forall k, Get d k = Returns (own_property d k))
    by (intros k; destruct d; try contradiction; reflexivity).
  rewrite HG. cbn [bind].
  destruct (Get_optional _ (js "length")) as [len|e]; [|reflexivity].
  cbn [bind]. unfold Array_from_length.
  destruct (ToLength coerce (or_else len (VNum 0))) as [n|e]; [|reflexivity].
  cbn [bind]. destruct (n >? 2 ^ 32 - 1); [reflexivity|].
  f_equal.
  induction (seq 0 (Z.to_nat n)) as [|a l IH]; [reflexivity|].
  cbn [mapM]. rewrite (fill_row_object d _ a Hd), IH. reflexivity.
Qed.

Lemma guard_not_object coerce v :
  ~ is_object v -> transformToRows coerce v = Returns (VArr []).
Proof.
  intros H. destruct v; try (exfalso; apply H; exact I); try reflexivity;
    unfold transformToRows; cbn [truthy]; destruct (negb _); reflexivity.
Qed.

Lemma is_object_dec v : {is_object v} + {~ is_object v}.
Proof. destruct v; try (left; exact I); right; intros []. Qed.

Lemma ToLength_creatable coerce len :
  creatable_length len ->
  exists n, ToLength coerce (or_else len (VNum 0)) = Returns n
            /\ 0 <= n <= 2 ^ 32 - 1.
Proof.
  intros H. destruct len as [| |b|z|s|l|p]; try contradiction.
  - exists 0. split; [reflexivity | lia].
  - exists 0. split; [reflexivity | lia].
  - destruct b; [exists 1 | exists 0]; (split; [reflexivity | lia]).
  - cbn [creatable_length] in H. unfold or_else. cbn [truthy].
    destruct (Z.eqb_spec z 0) as [->|Hz]; cbn [negb].
    + exists 0. split; [reflexivity | lia].
    + exists (Z.min (Z.max z 0) (2 ^ 53 - 1)). split; [reflexivity | lia].
Qed.

(** Claim C9, amended.  [transformToRows] returns the empty array on
    [null], on [undefined], on every value that is not an object, and
    on the mapping without keys.  On any input it returns an array and
    raises nothing when the [length] of the value bound to the first key
    is absent, a boolean, or a number of at most 2^32 - 1, as it is for
    every array and string; on an object whose first key binds a value
    with a [length] above 2^32 - 1 it raises a RangeError. *)
Theorem transformToRows_absent_input coerce :
  transformToRows coerce VNull = Returns (VArr [])
  /\ transformToRows coerce VUndefined = Returns (VArr [])
  /\ (forall v, typeof v <> js "object" ->
      transformToRows coerce v = Returns (VArr []))
  /\ transformToRows coerce (VObj []) = Returns (VArr [])
  /\ (forall v len,
        Get_optional (own_property v (first_key (Object_keys v)))
          (js "length") = Returns len ->
        creatable_length len ->
        exists rows, transformToRows coerce v = Returns (VArr rows))
  /\ (forall v n,
        is_object v ->
        Get_optional (own_property v (first_key (Object_keys v)))
          (js "length") = Returns (VNum n) ->
        2 ^ 32 - 1 < n ->
        transformToRows coerce v = Throws RangeError).
Proof.
  split; [reflexivity|]. split; [reflexivity|].
  split; [|split; [reflexivity|split]].
  - intros v Hv. unfold transformToRows.
    rewrite (jsstring_eqb_neq _ _ Hv). rewrite orb_true_r. reflexivity.
  - intros v len Hlen Hc. destruct (is_object_dec v) as [Hd|Hd].
    + rewrite (guard_object coerce v Hd), Hlen. cbn [bind].
      destruct (ToLength_creatable coerce len Hc) as (n & Hn & Hb).
      unfold Array_from_length. rewrite Hn. cbn [bind].
      rewrite Z.gtb_ltb. destruct (Z.ltb_spec (2 ^ 32 - 1) n); [lia|].
      rewrite (mapM_Returns _
                 (fun i => VObj (fill_props v (Object_keys v) i)))
        by reflexivity.
      eexists. reflexivity.
    + exists []. apply guard_not_object. exact Hd.
  - intros v n Hd Hlen Hn.
    rewrite (guard_object coerce v Hd), Hlen. cbn [bind].
    unfold or_else. cbn [truthy].
    destruct (Z.eqb_spec n 0) as [->|_]; [lia|]. cbn [negb].
    unfold Array_from_length, ToLength. cbn [bind].
    rewrite Z.gtb_ltb.
    destruct (Z.ltb_spec (2 ^ 32 - 1) (Z.min (Z.max n 0) (2 ^ 53 - 1)));
      [reflexivity | lia].
Qed.

Lemma transformToRows_absent_input_witness :
  transformToRows (fun _ => Returns 0) (VNum 5) = Returns (VArr [])
  /\ transformToRows (fun _ => Returns 0) (VStr (js "abc")) = Returns (VArr [])
  /\ (exists rows,
        transformToRows (fun _ => Returns 0)
          (VObj [(js "a", VArr [VNum 1; VNum 2]); (js "b", VNum 7)])
        = Returns (VArr rows))
  /\ transformToRows (fun _ => Returns 0)
       (VArr [VObj [(js "length", VNum 4294967296)]])
     = Throws RangeError.
Proof.
  split; [|split; [|split]].
  - apply (proj1 (proj2 (proj2
             (transformToRows_absent_input (fun _ => Returns 0)))) (VNum 5)).
    discriminate.
  - apply (proj1 (proj2 (proj2
             (transformToRows_absent_input (fun _ => Returns 0))))
             (VStr (js "abc"))).
    discriminate.
  - apply (proj1 (proj2 (proj2 (proj2 (proj2
             (transformToRows_absent_input (fun _ => Returns 0))))))
             (VObj [(js "a", VArr [VNum 1; VNum 2]); (js "b", VNum 7)])
             (VNum 2)).
    + reflexivity.
    + vm_compute. discriminate.
  - apply (proj2 (proj2 (proj2 (proj2 (proj2
             (transformToRows_absent_input (fun _ => Returns 0))))))
             (VArr [VObj [(js "length", VNum 4294967296)]]) 4294967296).
    + exact I.
    + reflexivity.
    + lia.
Defined.

(** Claim C9 as stated fails on [{a: {length: 4294967296}}]: the value
    bound to the first key has a [length] above 2^32 - 1, and
    [Array.from] raises a RangeError. *)
Lemma transformToRows_raises :
  transformToRows (fun _ => Returns 0)
    (VObj [(js "a", VObj [(js "length", VNum 4294967296)])])
  = Throws RangeError.
Proof. vm_compute. reflexivity. Qed.

(** X10.  [transformToRows] raises only from [Array.from], on the
    [length] of the value bound to the first key: it throws [e] exactly
    when the input is an object, that length is truthy, and either its
    conversion to an integer raises [e], or it converts to more than
    2^32 - 1 and [e] is a RangeError.  No property read raises. *)
Theorem transformToRows_errors coerce v e :
  transformToRows coerce v = Throws e
  <-> is_object v
      /\ exists len,
           Get_optional (own_property v (first_key (Object_keys v)))
             (js "length") = Returns len
           /\ truthy len = true
           /\ (ToLength coerce len = Throws e
               \/ exists n, ToLength coerce len = Returns n
                            /\ 2 ^ 32 - 1 < n /\ e = RangeError).
Proof.
  split.
  - intros H.
    assert (Hd : is_object v \/ transformToRows coerce v = Returns (VArr []))
      by (destruct v; try (left; exact I); right; try reflexivity;
          unfold transformToRows; cbn [truthy]; destruct (negb _);
          reflexivity).
    destruct Hd as [Hd|Hd]; [|rewrite Hd in H; discriminate H].
    split; [exact Hd|]. rewrite (guard_object coerce v Hd) in H.
    destruct (Get_optional_returns (own_property v (first_key (Object_keys v)))
                (js "length")) as [len El].
    rewrite El in H. cbn [bind] in H. exists len. split; [exact El|].
    unfold or_else in H. destruct (truthy len) eqn:Et.
    + split; [reflexivity|]. unfold Array_from_length in H.
      destruct (ToLength coerce len) as [n|e'] eqn:En; cbn [bind] in H.
      * right. exists n. split; [reflexivity|].
        rewrite Z.gtb_ltb in H. destruct (Z.ltb_spec (2 ^ 32 - 1) n).
        -- injection H as <-. split; [assumption | reflexivity].
        -- rewrite (mapM_Returns _
                      (fun i => VObj (fill_props v (Object_keys v) i)))
             in H by reflexivity. discriminate H.
      * left. injection H as <-. reflexivity.
    + exfalso. unfold Array_from_length, ToLength in H. cbn [bind] in H.
      change (Z.min (Z.max 0 0) (2 ^ 53 - 1) >? 2 ^ 32 - 1) with false in H.
      rewrite (mapM_Returns _ (fun i => VObj (fill_props v (Object_keys v) i)))
        in H by reflexivity. discriminate H.
  - intros (Hd & len & El & Et & Hc).
    rewrite (guard_object coerce v Hd), El. cbn [bind].
    unfold or_else. rewrite Et. unfold Array_from_length.
    destruct Hc as [Hc | (n & Hn & Hbig & ->)].
    + rewrite Hc. reflexivity.
    + rewrite Hn. cbn [bind]. rewrite Z.gtb_ltb.
      destruct (Z.ltb_spec (2 ^ 32 - 1) n); [reflexivity | lia].
Qed.

Lemma transformToRows_object_result coerce d rows :
  is_object d ->
  transformToRows coerce d = Returns (VArr rows) ->
  exists n, rows = map (fun i => VObj (fill_props d (Object_keys d) i)) (seq 0 n).
Proof.
  intros Hd H. rewrite (guard_object coerce d Hd) in H.
  destruct (Get_optional _ (js "length")) as [len|e]; [|discriminate H].
  cbn [bind] in H. unfold Array_from_length in H.
  destruct (ToLength coerce _) as [n|e]; [|discriminate H]. cbn [bind] in H.
  destruct (n >? 2 ^ 32 - 1); [discriminate H|].
  rewrite (mapM_Returns _ (fun i => VObj (fill_props d (Object_keys d) i)))
    in H by reflexivity.
  cbn [bind] in H. injection H as <-. exists (Z.to_nat n). reflexivity.
Qed.

Lemma fill_props_mapping cols i :
  NoDup (map fst cols) ->
  VObj (fill_props (VObj cols) (map fst cols) i) = row_of cols i.
Proof.
  intros ND. pose proof (fill_row_columns cols ND i) as H.
  rewrite (fill_row_object (VObj cols) _ i I) in H. injection H as H.
  rewrite H. reflexivity.
Qed.

Lemma cell_of_defined c i : cell_of c i <> VUndefined.
Proof.
  unfold cell_of.
  destruct (match c with VUndefined | VNull => VUndefined
            | _ => own_property c (index_key i) end); discriminate.
Qed.

(** X11.  Every row has as its own properties the keys of the input
    other than [__proto__], in the input's order, and holds no
    [undefined], whatever the columns are. *)
Theorem transformToRows_rows_shape coerce cols rows :
  NoDup (map fst cols) ->
  transformToRows coerce (VObj cols) = Returns (VArr rows) ->
  forall row, In row rows ->
    exists props,
      row = VObj props
      /\ map fst props = filter ordinary_key (map fst cols)
      /\ forall k v, In (k, v) props -> v <> VUndefined.
Proof.
  intros ND H row Hin.
  destruct (transformToRows_object_result coerce (VObj cols) rows I H)
    as [n ->].
  apply in_map_iff in Hin. destruct Hin as (i & <- & _).
  cbn [Object_keys]. rewrite (fill_props_mapping cols i ND).
  eexists. split; [reflexivity|].
  split; [rewrite map_map; cbn [fst]; apply own_columns_keys|].
  intros k v Hkv. apply in_map_iff in Hkv. destruct Hkv as ([k' c] & E & _).
  injection E as _ <-. apply cell_of_defined.
Qed.

(** X12.  The call returns whenever the first column has a numeric
    [length] that an array can have, as every array and string has; the
    other columns may hold anything.  There are as many rows as that
    length, none when it is negative. *)
Theorem transformToRows_returns coerce k0 c0 rest n :
  Get_optional c0 (js "length") = Returns (VNum n) ->
  n <= 2 ^ 32 - 1 ->
  exists rows,
    transformToRows coerce (VObj ((k0, c0) :: rest)) = Returns (VArr rows)
    /\ Z.of_nat (List.length rows) = Z.max n 0.
Proof.
  intros Hlen Hn.
  rewrite (guard_object coerce (VObj ((k0, c0) :: rest)) I).
  cbn [Object_keys map fst first_key own_property lookup].
  rewrite jsstring_eqb_refl, Hlen. cbn [bind].
  assert (Ho : exists m, or_else (VNum n) (VNum 0) = VNum m /\ Z.max m 0 = Z.max n 0).
  { unfold or_else. cbn [truthy]. destruct (Z.eqb_spec n 0) as [->|];
      eexists; split; reflexivity. }
  destruct Ho as (m & -> & Hm).
  unfold Array_from_length, ToLength. cbn [bind].
  rewrite Z.gtb_ltb.
  destruct (Z.ltb_spec (2 ^ 32 - 1) (Z.min (Z.max m 0) (2 ^ 53 - 1))); [lia|].
  rewrite (mapM_Returns _
             (fun i => VObj (fill_props (VObj ((k0, c0) :: rest))
                               (k0 :: map fst rest) i)))
    by reflexivity.
  eexists. split; [reflexivity|].
  rewrite length_map, length_seq. lia.
Qed.

Lemma read_seq {A} (d : A) l : forall n,
  map (fun i => nth i l d) (seq 0 n) = firstn n l ++ repeat d (n - List.length l).
Proof.
  induction l as [|a l IH]; intros n.
  - rewrite firstn_nil, Nat.sub_0_r. cbn [List.app].
    induction n as [|n IHn]; [reflexivity|].
    rewrite seq_S, map_app, IHn. cbn [map]. destruct n; cbn [nth];
      symmetry; apply (repeat_cons _ d).
  - destruct n as [|n]; [reflexivity|].
    cbn [seq map nth firstn List.length Nat.sub List.app].
    rewrite <- seq_shift, map_map. cbn [nth]. rewrite IH. reflexivity.
Qed.

(** X13.  Reading a key other than [__proto__] off the rows gives back
    the column: cut to the row count when it is longer, filled with
    [null] when it is shorter, an [undefined] element read as [null]. *)
Theorem transformToRows_column_round_trip coerce k0 l0 rest k l :
  NoDup (map fst ((k0, VArr l0) :: rest)) ->
  Z.of_nat (List.length l0) <= 2 ^ 32 - 1 ->
  In (k, VArr l) ((k0, VArr l0) :: rest) ->
  k <> js "__proto__" ->
  exists rows,
    transformToRows coerce (VObj ((k0, VArr l0) :: rest)) = Returns (VArr rows)
    /\ column_of k rows
       = firstn (List.length l0) (map (fun v => nullish v VNull) l)
         ++ repeat VNull (List.length l0 - List.length l).
Proof.
  intros ND HL Hin Hk. set (cols := (k0, VArr l0) :: rest) in *.
  exists (map (row_of cols) (seq 0 (List.length l0))). split.
  - apply (transformToRows_length coerce cols ND k0 (VArr l0) rest _ eq_refl);
      [reflexivity | exact HL].
  - unfold column_of. rewrite map_map.
    rewrite <- (length_map (fun v => nullish v VNull) l) at 1.
    rewrite <- read_seq. apply map_ext. intros i.
    unfold row_of. cbn [own_property].
    rewrite (lookup_map (fun c => cell_of c i) k (VArr l) (own_columns cols)
               (own_columns_NoDup cols ND)
               (own_columns_in k (VArr l) cols Hin Hk)).
    rewrite cell_of_array.
    destruct (nth_error l i) as [v|] eqn:En.
    + symmetry. apply nth_error_nth. rewrite nth_error_map, En. reflexivity.
    + symmetry. apply nth_overflow. rewrite length_map.
      apply nth_error_None. exact En.
Qed.

Lemma cell_of_string s i c :
  nth_error s i = Some c -> cell_of (VStr s) i = VStr [c].
Proof.
  intros H. unfold cell_of. cbn [own_property].
  rewrite index_key_not_length, array_index_index_key, H. reflexivity.
Qed.

(** X14.  A string bound to the first key counts as the sequence of its
    code units: one row per unit, each holding that unit as a string
    under the key, when the key is not [__proto__]. *)
Theorem transformToRows_string_column coerce k0 s rest :
  NoDup (map fst ((k0, VStr s) :: rest)) ->
  Z.of_nat (List.length s) <= 2 ^ 32 - 1 ->
  k0 <> js "__proto__" ->
  exists rows,
    transformToRows coerce (VObj ((k0, VStr s) :: rest)) = Returns (VArr rows)
    /\ List.length rows = List.length s
    /\ forall i c, nth_error s i = Some c ->
         exists props,
           nth_error rows i = Some (VObj props)
           /\ lookup k0 props = Some (VStr [c]).
Proof.
  intros ND HL Hk0. set (cols := (k0, VStr s) :: rest) in *.
  exists (map (row_of cols) (seq 0 (List.length s))). split; [|split].
  - apply (transformToRows_length coerce cols ND k0 (VStr s) rest _ eq_refl);
      [reflexivity | exact HL].
  - rewrite length_map, length_seq. reflexivity.
  - intros i c Hc.
    assert (Hi : (i < List.length s)%nat)
      by (apply nth_error_Some; rewrite Hc; discriminate).
    eexists. split; [apply nth_error_rows; exact Hi|].
    rewrite (lookup_map (fun x => cell_of x i) k0 (VStr s) (own_columns cols)
               (own_columns_NoDup cols ND))
      by (apply own_columns_in; [left; reflexivity | exact Hk0]).
    rewrite (cell_of_string s i c Hc). reflexivity.
Qed.

Lemma index_key_inj i j : index_key i = index_key j -> i = j.
Proof.
  intros E. pose proof (array_index_index_key i) as Hi.
  rewrite E, array_index_index_key in Hi. injection Hi as <-. reflexivity.
Qed.

Lemma indexed_keys elems : forall i,
  map fst (indexed i elems) = map index_key (seq i (List.length elems)).
Proof.
  induction elems as [|e r IH]; intros i; [reflexivity|].
  cbn [indexed map fst List.length seq]. rewrite IH. reflexivity.
Qed.

Lemma lookup_indexed elems : forall i j,
  lookup (index_key (i + j)) (indexed i elems) = nth_error elems j.
Proof.
  induction elems as [|e r IH]; intros i j.
  - destruct j; reflexivity.
  - cbn [indexed lookup]. destruct j as [|j].
    + rewrite Nat.add_0_r, jsstring_eqb_refl. reflexivity.
    + rewrite jsstring_eqb_neq by (intros E; apply index_key_inj in E; lia).
      replace (i + S j)%nat with (S i + j)%nat by lia. apply IH.
Qed.

Lemma lookup_indexed_other elems k : forall i,
  array_index k = None -> lookup k (indexed i elems) = None.
Proof.
  induction elems as [|e r IH]; intros i H; [reflexivity|].
  cbn [indexed lookup].
  rewrite jsstring_eqb_neq; [apply IH; exact H|].
  intros E. rewrite <- E, array_index_index_key in H. discriminate H.
Qed.

Lemma own_property_indexed elems k :
  jsstring_eqb k (js "length") = false ->
  own_property (VArr elems) k = own_property (VObj (indexed 0 elems)) k.
Proof.
  intros Hk. cbn [own_property]. rewrite Hk.
  destruct (array_index k) as [j|] eqn:Ej.
  - assert (Ek : k = index_key j).
    { unfold array_index in Ej. destruct k as [|c k]; [discriminate Ej|].
      destruct (forallb is_digit (c :: k)); [|discriminate Ej].
      destruct (jsstring_eqb _ (c :: k)) eqn:Eq; [|discriminate Ej].
      injection Ej as <-. apply jsstring_eqb_eq in Eq. symmetry. exact Eq. }
    subst k. pose proof (lookup_indexed elems 0 j) as Hl.
    cbn [Nat.add] in Hl. rewrite Hl. reflexivity.
  - rewrite lookup_indexed_other by exact Ej. reflexivity.
Qed.

Lemma fold_left_ext_in {A B} (f g : A -> B -> A) l :
  (forall a b, In b l -> f a b = g a b) ->
  forall a, fold_left f l a = fold_left g l a.
Proof.
  induction l as [|b l IH]; intros H a; [reflexivity|].
  cbn [fold_left]. rewrite H by (left; reflexivity).
  apply IH. intros a' b' Hin. apply H. right. exact Hin.
Qed.

(** X15.  An array is transposed as the mapping from its indices to
    its elements. *)
Theorem transformToRows_array_as_mapping coerce elems :
  transformToRows coerce (VArr elems)
  = transformToRows coerce (VObj (indexed 0 elems)).
Proof.
  rewrite (guard_object coerce (VArr elems) I).
  rewrite (guard_object coerce (VObj (indexed 0 elems)) I).
  cbn [Object_keys]. rewrite indexed_keys.
  set (keys := map index_key (seq 0 (List.length elems))).
  assert (Hkeys : forall k, In k keys -> jsstring_eqb k (js "length") = false).
  { intros k Hin. apply in_map_iff in Hin. destruct Hin as (i & <- & _).
    apply index_key_not_length. }
  assert (Hfirst : jsstring_eqb (first_key keys) (js "length") = false).
  { destruct keys as [|k ks] eqn:Ek; [reflexivity|].
    apply Hkeys. left. reflexivity. }
  rewrite (own_property_indexed elems _ Hfirst).
  destruct (Get_optional _ (js "length")) as [len|e]; [|reflexivity].
  cbn [bind]. unfold Array_from_length.
  destruct (ToLength coerce _) as [n|e]; [|reflexivity]. cbn [bind].
  destruct (n >? 2 ^ 32 - 1); [reflexivity|].
  assert (Hrow : forall i,
            fill_props (VArr elems) keys i
            = fill_props (VObj (indexed 0 elems)) keys i).
  { intros i. unfold fill_props. apply fold_left_ext_in.
    intros row k Hin. rewrite (own_property_indexed elems k (Hkeys k Hin)).
    reflexivity. }
  rewrite (mapM_Returns _ (fun i => VObj (fill_props (VArr elems) keys i)))
    by reflexivity.
  rewrite (mapM_Returns _
             (fun i => VObj (fill_props (VObj (indexed 0 elems)) keys i)))
    by reflexivity.
  cbn [bind]. f_equal. f_equal. apply map_ext. intros i. rewrite Hrow.
  reflexivity.
Qed.

(** X16.  Data that is already an array of records, or any array whose
    first element has no [length], gives the empty array. *)
Theorem transformToRows_row_shaped_input coerce e rest :
  Get_optional e (js "length") = Returns VUndefined ->
  transformToRows coerce (VArr (e :: rest)) = Returns (VArr []).
Proof.
  intros H. rewrite (guard_object coerce (VArr (e :: rest)) I).
  cbn [Object_keys List.length seq map first_key].
  rewrite (own_property_element (e :: rest) 0). cbn [nth_error].
  rewrite H. reflexivity.
Qed.

(** ** Instances of the properties above *)

Lemma academicYear_expanded_years_witness :
  exists r,
    academicYear (InputString (js "-2025")) = ([], Returns (Some r))
    /\ start r = expanded_year (-2025) ++ js "-09-01"
    /\ end_ r = expanded_year (-2025 + 1) ++ js "-08-31"
    /\ List.length (start r) = 13%nat.
Proof.
  apply (academicYear_expanded_years (InputString (js "-2025")) (-2025));
    [reflexivity | unfold in_date_range; lia | lia].
Defined.

Lemma academicYear_two_digit_years_witness :
  exists r,
    academicYear (InputNumber 50) = ([], Returns (Some r))
    /\ start r = iso_date (1900 + 50) 9 1
    /\ (50 <= 98 -> end_ r = iso_date (1901 + 50) 8 31)
    /\ (50 = 99 -> end_ r = iso_date 100 8 31)
    /\ rangeFull r = decimal_string 50 ++ js "-" ++ decimal_string (50 + 1).
Proof.
  apply (academicYear_two_digit_years (InputNumber 50) 50); [reflexivity | lia].
Defined.

Lemma academicYear_short_forms_modulo_witness :
  exists r,
    academicYear (InputNumber 2099) = ([], Returns (Some r))
    /\ rangeShort r
       = decimal_digits 2 (2099 mod 100) ++ js "-"
         ++ decimal_digits 2 ((2099 + 1) mod 100)
    /\ rangeCompact r
       = decimal_digits 2 (2099 mod 100)
         ++ decimal_digits 2 ((2099 + 1) mod 100).
Proof.
  apply (academicYear_short_forms_modulo (InputNumber 2099) 2099);
    [reflexivity | lia].
Defined.

Lemma academicYear_leading_integer_witness :
  parseInt (InputString (js "  " ++ decimal_string 2025 ++ js "-2026"))
  = Some 2025
  /\ snd (academicYear
            (InputString (js "  " ++ decimal_string 2025 ++ js "-2026")))
     = snd (academicYear (InputString (decimal_string 2025)))
  /\ fst (academicYear
            (InputString (js "  " ++ decimal_string 2025 ++ js "-2026")))
     = [].
Proof.
  apply (academicYear_leading_integer (js "  ") 2025 (js "-2026"));
    reflexivity.
Defined.

Lemma currentAcademicYear_monotone_witness :
  currentAcademicYear (MakeDate (MakeDay 2025 7 31) 0)
  <= currentAcademicYear (MakeDate (MakeDay 2025 8 1) 0).
Proof.
  apply (currentAcademicYear_monotone (MakeDate (MakeDay 2025 7 31) 0)
           (MakeDate (MakeDay 2025 8 1) 0)).
  vm_compute. discriminate.
Defined.

Lemma academicYear_of_current_year_witness :
  exists r s e,
    academicYear
      (InputNumber (currentAcademicYear (MakeDate (MakeDay 2026 1 14) 0)))
    = ([], Returns (Some r))
    /\ Date.new (UTC (currentAcademicYear (MakeDate (MakeDay 2026 1 14) 0)) 8 1)
       = Some s
    /\ Date.new
         (UTC (currentAcademicYear (MakeDate (MakeDay 2026 1 14) 0) + 1) 7 31)
       = Some e
    /\ s <= MakeDate (MakeDay 2026 1 14) 0 < e + msPerDay
    /\ (currentAcademicYear (MakeDate (MakeDay 2026 1 14) 0) <= 9998 ->
        start r
        = iso_date (currentAcademicYear (MakeDate (MakeDay 2026 1 14) 0)) 9 1
        /\ end_ r
           = iso_date
               (currentAcademicYear (MakeDate (MakeDay 2026 1 14) 0) + 1) 8 31).
Proof.
  apply (academicYear_of_current_year (MakeDate (MakeDay 2026 1 14) 0)).
  vm_compute. split; discriminate.
Defined.

Lemma academicYear_dates_consecutive_witness :
  exists r r' e se ss,
    academicYear (InputNumber 2025) = ([], Returns (Some r))
    /\ academicYear (InputNumber (2025 + 1)) = ([], Returns (Some r'))
    /\ Date.new (UTC (2025 + 1) 7 31) = Some e
    /\ toISOString (Some e) = Returns se
    /\ end_ r = split_first 84%N se
    /\ Date.new (UTC (2025 + 1) 8 1) = Some (e + msPerDay)
    /\ toISOString (Some (e + msPerDay)) = Returns ss
    /\ start r' = split_first 84%N ss.
Proof.
  apply (academicYear_dates_consecutive 2025); unfold in_date_range; lia.
Defined.

Lemma academicYear_dates_span_witness :
  exists r s e ss se,
    academicYear (InputNumber 2023) = ([], Returns (Some r))
    /\ Date.new (UTC 2023 8 1) = Some s
    /\ toISOString (Some s) = Returns ss
    /\ start r = split_first 84%N ss
    /\ Date.new (UTC (2023 + 1) 7 31) = Some e
    /\ toISOString (Some e) = Returns se
    /\ end_ r = split_first 84%N se
    /\ e - s
       = (364 + (if InLeapYear_of (MakeFullYear (2023 + 1)) then 1 else 0))
         * msPerDay.
Proof.
  apply (academicYear_dates_span 2023); [unfold in_date_range; lia | lia | lia].
Defined.

Lemma transformToRows_errors_witness :
  is_object (VObj [(js "a", VObj [(js "length", VNum 4294967296)])])
  /\ exists len,
       Get_optional
         (own_property (VObj [(js "a", VObj [(js "length", VNum 4294967296)])])
            (first_key
               (Object_keys
                  (VObj [(js "a", VObj [(js "length", VNum 4294967296)])]))))
         (js "length") = Returns len
       /\ truthy len = true
       /\ (ToLength (fun _ => Returns 0) len = Throws RangeError
           \/ exists n, ToLength (fun _ => Returns 0) len = Returns n
                        /\ 2 ^ 32 - 1 < n /\ RangeError = RangeError).
Proof.
  apply (proj1 (transformToRows_errors (fun _ => Returns 0)
                  (VObj [(js "a", VObj [(js "length", VNum 4294967296)])])
                  RangeError)).
  vm_compute. reflexivity.
Defined.

Lemma transformToRows_rows_shape_witness :
  exists props,
    VObj [(js "a", VNum 2); (js "b", VNull)] = VObj props
    /\ map fst props
       = filter ordinary_key
           (map fst [(js "a", VArr [VNum 1; VNum 2]);
                     (js "__proto__", VArr [VNum 5; VNum 6]);
                     (js "b", VArr [VUndefined])])
    /\ forall k v, In (k, v) props -> v <> VUndefined.
Proof.
  apply (transformToRows_rows_shape (fun _ => Returns 0)
           [(js "a", VArr [VNum 1; VNum 2]);
            (js "__proto__", VArr [VNum 5; VNum 6]);
            (js "b", VArr [VUndefined])]
           [VObj [(js "a", VNum 1); (js "b", VNull)];
            VObj [(js "a", VNum 2); (js "b", VNull)]]).
  - repeat constructor; cbn; intuition discriminate.
  - vm_compute. reflexivity.
  - right. left. reflexivity.
Defined.

Lemma transformToRows_returns_witness :
  exists rows,
    transformToRows (fun _ => Returns 0)
      (VObj [(js "a", VArr [VNum 1; VNum 2]); (js "b", VNum 7);
             (js "c", VObj [])])
    = Returns (VArr rows)
    /\ Z.of_nat (List.length rows) = Z.max 2 0.
Proof.
  apply (transformToRows_returns (fun _ => Returns 0) (js "a")
           (VArr [VNum 1; VNum 2]) [(js "b", VNum 7); (js "c", VObj [])] 2);
    [reflexivity | vm_compute; discriminate].
Defined.

Lemma transformToRows_column_round_trip_witness :
  exists rows,
    transformToRows (fun _ => Returns 0)
      (VObj [(js "a", VArr [VNum 1; VNum 2; VNum 3]);
             (js "b", VArr [VNum 10])])
    = Returns (VArr rows)
    /\ column_of (js "b") rows
       = firstn 3 (map (fun v => nullish v VNull) [VNum 10])
         ++ repeat VNull (3 - 1).
Proof.
  apply (transformToRows_column_round_trip (fun _ => Returns 0) (js "a")
           [VNum 1; VNum 2; VNum 3] [(js "b", VArr [VNum 10])] (js "b")
           [VNum 10]).
  - repeat constructor; cbn; intuition discriminate.
  - vm_compute. discriminate.
  - right. left. reflexivity.
  - discriminate.
Defined.

Lemma transformToRows_string_column_witness :
  exists rows,
    transformToRows (fun _ => Returns 0)
      (VObj [(js "a", VStr (js "xy")); (js "b", VArr [VNum 1])])
    = Returns (VArr rows)
    /\ List.length rows = List.length (js "xy")
    /\ forall i c, nth_error (js "xy") i = Some c ->
         exists props,
           nth_error rows i = Some (VObj props)
           /\ lookup (js "a") props = Some (VStr [c]).
Proof.
  apply (transformToRows_string_column (fun _ => Returns 0) (js "a") (js "xy")
           [(js "b", VArr [VNum 1])]).
  - repeat constructor; cbn; intuition discriminate.
  - vm_compute. discriminate.
  - discriminate.
Defined.

Lemma transformToRows_row_shaped_input_witness :
  transformToRows (fun _ => Returns 0)
    (VArr [VObj [(js "a", VNum 1)]; VObj [(js "a", VNum 2)]])
  = Returns (VArr []).
Proof.
  apply (transformToRows_row_shaped_input (fun _ => Returns 0)
           (VObj [(js "a", VNum 1)]) [VObj [(js "a", VNum 2)]]).
  reflexivity.
Defined.
